(** * rtklient: NMEA and NTRIP/RTCM decoders

    A shallow embedding of [gpsdecoder.py] and [ntripdecoder.py], and the
    properties of the stream reassembler, the CRC, the source-table parser
    and the NMEA decoder.

    Python values are modelled as the code uses them:
    - a [bytes] object is a list of [Byte.byte]; an element read by
      indexing is the integer [byte_val b] in [0, 256);
    - [int] is [Z] (unbounded, as in Python), with the operators [<<],
      [>>], [&], [^] as [Z.shiftl], [Z.shiftr], [Z.land], [Z.lxor];
    - [str] is [string] (ASCII text); [None] is a constructor of [pyval];
    - [float] is the binary64 type [float] with its own [+], [/] and
      unary [-];
    - an exception is the [Raise] outcome of the [result] monad; a method
      that assigns attributes before it may raise runs in the state and
      exception monad [Gps.M];
    - the constructors [int()] and [float()] are taken as parameters (the
      class [Parsers]), with an instance for plain decimal numerals.

    Sockets, the serial port and its thread, and the [print] diagnostics
    are not part of the embedding: [receive_rtcm] takes what [poll]
    returned, and [get_sourcetable] the text that [receive_text] returned. *)

From Stdlib Require Import ZArith List String Ascii Lia Bool Floats Uint63.
From Stdlib.Strings Require Import Byte.
From stdpp Require Import gmap strings list.

Import ListNotations.

#[local] Set Warnings "-inexact-float".

(** ** Python primitives *)

Module Py.

Inductive exn : Set := IndexError | TypeError | ValueError | KeyError.

Inductive result (A : Type) : Type :=
| Ok (a : A)
| Raise (e : exn).

Arguments Ok {A} a.
Arguments Raise {A} e.

Definition bind {A B} (r : result A) (k : A -> result B) : result B :=
  match r with
  | Ok a => k a
  | Raise e => Raise e
  end.

(** [try: r except: handler] with a bare [except]. *)
Definition try_except {A} (r : result A) (handler : A) : A :=
  match r with
  | Ok a => a
  | Raise _ => handler
  end.

Definition len {A} (l : list A) : Z := Z.of_nat (List.length l).

Local Open Scope Z_scope.

(** [l[i]]: a negative index counts from the end; out of range raises. *)
Definition index {A} (l : list A) (i : Z) : result A :=
  let j := if i <? 0 then i + len l else i in
  if (0 <=? j) && (j <? len l) then
    match nth_error l (Z.to_nat j) with
    | Some x => Ok x
    | None => Raise IndexError
    end
  else Raise IndexError.

(** The bound of a slice: negative counts from the end, then clamped. *)
Definition clamp {A} (l : list A) (i : Z) : Z :=
  if i <? 0 then Z.max (i + len l) 0 else Z.min i (len l).

(** [l[lo:hi]] *)
Definition slice {A} (l : list A) (lo hi : Z) : list A :=
  let a := clamp l lo in
  let b := clamp l hi in
  firstn (Z.to_nat (b - a)) (skipn (Z.to_nat a) l).

(** [l[lo:]] *)
Definition slice_from {A} (l : list A) (lo : Z) : list A :=
  skipn (Z.to_nat (clamp l lo)) l.

(** *** Strings *)

(** [None] or a [str]: what [getval] returns and the decoders receive. *)
Inductive pyval : Set :=
| PNone
| PStr (s : string).

(** A number held in an attribute: the [int] it was initialised with or
    defaulted to, or a [float]. *)
Inductive num : Set :=
| PInt (z : Z)
| PFloat (f : float).

Definition str_len (s : string) : Z := Z.of_nat (String.length s).

(** [s[lo:hi]] and [s[lo:]] on strings. *)
Definition str_slice (s : string) (lo hi : Z) : string :=
  string_of_list_ascii (slice (list_ascii_of_string s) lo hi).

Definition str_slice_from (s : string) (lo : Z) : string :=
  string_of_list_ascii (slice_from (list_ascii_of_string s) lo).

(** [s.split(sep)] for a one-character separator. *)
Fixpoint split (sep : ascii) (s : string) : list string :=
  match s with
  | EmptyString => [EmptyString]
  | String c rest =>
      if Ascii.eqb c sep then EmptyString :: split sep rest
      else match split sep rest with
           | w :: ws => String c w :: ws
           | [] => [String c EmptyString]
           end
  end.

(** [s.startswith(p)] *)
Definition startswith (s p : string) : bool := String.prefix p s.

(** [sub in s] on strings: the substring test. *)
Fixpoint contains (sub s : string) : bool :=
  String.prefix sub s ||
  match s with
  | EmptyString => false
  | String _ rest => contains sub rest
  end.

(** [v in s] where [v] may be [None]: [TypeError], as the left operand of
    [in] on a string must be a string. *)
Definition py_in (v : pyval) (s : string) : result bool :=
  match v with
  | PNone => Raise TypeError
  | PStr sub => Ok (contains sub s)
  end.

(** [len(v)] where [v] may be [None]. *)
Definition py_len (v : pyval) : result Z :=
  match v with
  | PNone => Raise TypeError
  | PStr s => Ok (str_len s)
  end.

(** [v == s] for a string literal [s]: [None] compares unequal. *)
Definition py_eq (v : pyval) (s : string) : bool :=
  match v with
  | PNone => false
  | PStr s' => String.eqb s' s
  end.

Definition upper_ascii (c : ascii) : ascii :=
  let n := nat_of_ascii c in
  if (97 <=? n)%nat && (n <=? 122)%nat then ascii_of_nat (n - 32) else c.

(** [s.upper()], on ASCII text. *)
Fixpoint upper (s : string) : string :=
  match s with
  | EmptyString => EmptyString
  | String c rest => String (upper_ascii c) (upper rest)
  end.

(** *** The constructors [int()] and [float()]

    The decoders are parametric in the two parsers ([None] stands for the
    [ValueError] of an unparsable string); [int_of_decimal] and
    [float_of_decimal] are their restriction to plain decimal numerals, on
    which the definitions can be run. *)

Definition digit_val (c : ascii) : option Z :=
  let n := Z.of_nat (nat_of_ascii c) in
  if (48 <=? n) && (n <=? 57) then Some (n - 48) else None.

Fixpoint digits_val (acc : Z) (s : string) : option Z :=
  match s with
  | EmptyString => Some acc
  | String c rest =>
      match digit_val c with
      | Some d => digits_val (10 * acc + d) rest
      | None => None
      end
  end.

Definition unsigned_decimal (s : string) : option Z :=
  match s with
  | EmptyString => None
  | _ => digits_val 0 s
  end.

Definition int_of_decimal (s : string) : option Z :=
  match s with
  | String "-"%char rest => option_map Z.opp (unsigned_decimal rest)
  | String "+"%char rest => unsigned_decimal rest
  | _ => unsigned_decimal s
  end.

Definition float_of_Z (z : Z) : float := PrimFloat.of_uint63 (Uint63.of_Z z).

(** [digits] or [digits.digits] with at most 15 digits in all: the quotient
    of two exactly represented integers, which is the correctly rounded
    value that [float()] returns. *)
Definition unsigned_float (s : string) : option float :=
  match split "."%char s with
  | [i] =>
      if (String.length i <=? 15)%nat then
        option_map float_of_Z (unsigned_decimal i)
      else None
  | [i; f] =>
      if (String.length i + String.length f <=? 15)%nat then
        match digits_val 0 (String.append i f), String.append i f with
        | _, EmptyString => None
        | Some m, _ =>
            Some (float_of_Z m / float_of_Z (10 ^ Z.of_nat (String.length f)))%float
        | None, _ => None
        end
      else None
  | _ => None
  end.

Definition float_of_decimal (s : string) : option float :=
  match s with
  | String "-"%char rest => option_map PrimFloat.opp (unsigned_float rest)
  | String "+"%char rest => unsigned_float rest
  | _ => unsigned_float s
  end.

Class Parsers : Type := {
  int_of_str : string -> option Z;
  float_of_str : string -> option float
}.

#[export] Instance decimal_parsers : Parsers :=
  {| int_of_str := int_of_decimal; float_of_str := float_of_decimal |}.

(** [int(v)] and [float(v)]: [TypeError] on [None], [ValueError] on a
    string that does not parse. *)
Definition py_int `{Parsers} (v : pyval) : result Z :=
  match v with
  | PNone => Raise TypeError
  | PStr s =>
      match int_of_str s with
      | Some z => Ok z
      | None => Raise ValueError
      end
  end.

Definition py_float `{Parsers} (v : pyval) : result float :=
  match v with
  | PNone => Raise TypeError
  | PStr s =>
      match float_of_str s with
      | Some f => Ok f
      | None => Raise ValueError
      end
  end.

(** [v[lo:hi]] and [v[lo:]] where [v] may be [None]. *)
Definition py_getslice (v : pyval) (lo hi : Z) : result pyval :=
  match v with
  | PNone => Raise TypeError
  | PStr s => Ok (PStr (str_slice s lo hi))
  end.

Definition py_getslice_from (v : pyval) (lo : Z) : result pyval :=
  match v with
  | PNone => Raise TypeError
  | PStr s => Ok (PStr (str_slice_from s lo))
  end.

End Py.

Notation "x <- r ;; k" := (Py.bind r (fun x => k))
  (at level 100, r at next level, right associativity).

(** ** ntripdecoder.py *)

Module Ntrip.
Import Py.
Local Open Scope Z_scope.

Definition bytes := list byte.

Definition byte_val (b : byte) : Z := Z.of_N (Byte.to_N b).

Definition RTCM_START : Z := 0xd3.
Definition BLOCK_MAX : Z := 1030.

Definition CRC24_TABLE : list Z := [
    0x000000; 0x864cfb; 0x8ad50d; 0x0c99f6; 0x93e6e1; 0x15aa1a; 0x1933ec; 0x9f7f17;
    0xa18139; 0x27cdc2; 0x2b5434; 0xad18cf; 0x3267d8; 0xb42b23; 0xb8b2d5; 0x3efe2e;
    0xc54e89; 0x430272; 0x4f9b84; 0xc9d77f; 0x56a868; 0xd0e493; 0xdc7d65; 0x5a319e;
    0x64cfb0; 0xe2834b; 0xee1abd; 0x685646; 0xf72951; 0x7165aa; 0x7dfc5c; 0xfbb0a7;
    0x0cd1e9; 0x8a9d12; 0x8604e4; 0x00481f; 0x9f3708; 0x197bf3; 0x15e205; 0x93aefe;
    0xad50d0; 0x2b1c2b; 0x2785dd; 0xa1c926; 0x3eb631; 0xb8faca; 0xb4633c; 0x322fc7;
    0xc99f60; 0x4fd39b; 0x434a6d; 0xc50696; 0x5a7981; 0xdc357a; 0xd0ac8c; 0x56e077;
    0x681e59; 0xee52a2; 0xe2cb54; 0x6487af; 0xfbf8b8; 0x7db443; 0x712db5; 0xf7614e;
    0x19a3d2; 0x9fef29; 0x9376df; 0x153a24; 0x8a4533; 0x0c09c8; 0x00903e; 0x86dcc5;
    0xb822eb; 0x3e6e10; 0x32f7e6; 0xb4bb1d; 0x2bc40a; 0xad88f1; 0xa11107; 0x275dfc;
    0xdced5b; 0x5aa1a0; 0x563856; 0xd074ad; 0x4f0bba; 0xc94741; 0xc5deb7; 0x43924c;
    0x7d6c62; 0xfb2099; 0xf7b96f; 0x71f594; 0xee8a83; 0x68c678; 0x645f8e; 0xe21375;
    0x15723b; 0x933ec0; 0x9fa736; 0x19ebcd; 0x8694da; 0x00d821; 0x0c41d7; 0x8a0d2c;
    0xb4f302; 0x32bff9; 0x3e260f; 0xb86af4; 0x2715e3; 0xa15918; 0xadc0ee; 0x2b8c15;
    0xd03cb2; 0x567049; 0x5ae9bf; 0xdca544; 0x43da53; 0xc596a8; 0xc90f5e; 0x4f43a5;
    0x71bd8b; 0xf7f170; 0xfb6886; 0x7d247d; 0xe25b6a; 0x641791; 0x688e67; 0xeec29c;
    0x3347a4; 0xb50b5f; 0xb992a9; 0x3fde52; 0xa0a145; 0x26edbe; 0x2a7448; 0xac38b3;
    0x92c69d; 0x148a66; 0x181390; 0x9e5f6b; 0x01207c; 0x876c87; 0x8bf571; 0x0db98a;
    0xf6092d; 0x7045d6; 0x7cdc20; 0xfa90db; 0x65efcc; 0xe3a337; 0xef3ac1; 0x69763a;
    0x578814; 0xd1c4ef; 0xdd5d19; 0x5b11e2; 0xc46ef5; 0x42220e; 0x4ebbf8; 0xc8f703;
    0x3f964d; 0xb9dab6; 0xb54340; 0x330fbb; 0xac70ac; 0x2a3c57; 0x26a5a1; 0xa0e95a;
    0x9e1774; 0x185b8f; 0x14c279; 0x928e82; 0x0df195; 0x8bbd6e; 0x872498; 0x016863;
    0xfad8c4; 0x7c943f; 0x700dc9; 0xf64132; 0x693e25; 0xef72de; 0xe3eb28; 0x65a7d3;
    0x5b59fd; 0xdd1506; 0xd18cf0; 0x57c00b; 0xc8bf1c; 0x4ef3e7; 0x426a11; 0xc426ea;
    0x2ae476; 0xaca88d; 0xa0317b; 0x267d80; 0xb90297; 0x3f4e6c; 0x33d79a; 0xb59b61;
    0x8b654f; 0x0d29b4; 0x01b042; 0x87fcb9; 0x1883ae; 0x9ecf55; 0x9256a3; 0x141a58;
    0xefaaff; 0x69e604; 0x657ff2; 0xe33309; 0x7c4c1e; 0xfa00e5; 0xf69913; 0x70d5e8;
    0x4e2bc6; 0xc8673d; 0xc4fecb; 0x42b230; 0xddcd27; 0x5b81dc; 0x57182a; 0xd154d1;
    0x26359f; 0xa07964; 0xace092; 0x2aac69; 0xb5d37e; 0x339f85; 0x3f0673; 0xb94a88;
    0x87b4a6; 0x01f85d; 0x0d61ab; 0x8b2d50; 0x145247; 0x921ebc; 0x9e874a; 0x18cbb1;
    0xe37b16; 0x6537ed; 0x69ae1b; 0xefe2e0; 0x709df7; 0xf6d10c; 0xfa48fa; 0x7c0401;
    0x42fa2f; 0xc4b6d4; 0xc82f22; 0x4e63d9; 0xd11cce; 0x575035; 0x5bc9c3; 0xdd8538
  ].

(** One iteration of the loop of [crc24]:
    [val = (val << 8) ^ CRC24_TABLE[byte ^ ((val >> 16) & 0xff)]]. *)
Definition crc24_step (val byte : Z) : result Z :=
  t <- index CRC24_TABLE (Z.lxor byte (Z.land (Z.shiftr val 16) 0xff)) ;;
  Ok (Z.lxor (Z.shiftl val 8) t).

Fixpoint crc24_loop (val : Z) (data : bytes) : result Z :=
  match data with
  | [] => Ok val
  | b :: rest => val' <- crc24_step val (byte_val b) ;; crc24_loop val' rest
  end.

Definition crc24 (data : bytes) : result Z :=
  val <- crc24_loop 0 data ;;
  Ok (Z.land val 0xffffff).

(** [data.index(b)]: position of the first byte equal to [b];
    [ValueError] when there is none. *)
Fixpoint bytes_index (data : bytes) (b : Z) : result Z :=
  match data with
  | [] => Raise ValueError
  | x :: rest =>
      if byte_val x =? b then Ok 0
      else i <- bytes_index rest b ;; Ok (i + 1)
  end.

Definition bin_index (data : bytes) (b : Z) : Z :=
  try_except (bytes_index data b) (-1).

(** [get_msg] reads and assigns only [self.data]: the accumulator is passed
    in and the result is the pair of the returned [d] and the new
    [self.data]. *)
Definition get_msg (data : bytes) : result (bytes * bytes) :=
  let d : bytes := [] in
  let idx := bin_index data RTCM_START in
  text <- (if idx >? 3 then
             x <- index data (idx - 2) ;;
             if byte_val x =? 0xd then
               y <- index data (idx - 1) ;; Ok (byte_val y =? 0xa)
             else Ok false
           else Ok false) ;;
  if text then
    Ok (slice data 0 idx, slice_from data idx)
  else if (idx =? 0) && (len data >? 2) then
    b1 <- index data 1 ;;
    b2 <- index data 2 ;;
    let n := Z.shiftl (byte_val b1) 8 + byte_val b2 in
    if n >? 1024 then
      Ok ([], [])
    else if len data >=? n + 6 then
      let d := slice data 0 (n + 6) in
      crc <- crc24 d ;;
      if crc =? 0 then Ok (d, slice_from data (len d))
      else Ok ([], [])
    else Ok (d, data)
  else if idx >? 0 then
    Ok (d, slice_from data idx)
  else Ok (d, data).

(** [poll] returns the received block or [None]; [if part:] is false for
    [None] and for the empty block. *)
Definition receive_rtcm (data : bytes) (part : option bytes) : result (bytes * bytes) :=
  let data :=
    match part with
    | Some (b :: p) => data ++ b :: p
    | _ => data
    end in
  get_msg data.

(** *** Notions used to state the properties of the reassembler *)

(** The length word of a frame header, as [get_msg] computes it:
    [(data[1] << 8) + data[2]]. *)
Definition length_word (data : bytes) : result Z :=
  b1 <- index data 1 ;;
  b2 <- index data 2 ;;
  Ok (Z.shiftl (byte_val b1) 8 + byte_val b2).

(** The 10-bit payload length of the RTCM3 header: the low two bits of
    byte 1 followed by byte 2, the upper six bits of byte 1 being reserved. *)
Definition ten_bit_length (data : bytes) : result Z :=
  b1 <- index data 1 ;;
  b2 <- index data 2 ;;
  Ok (Z.shiftl (Z.land (byte_val b1) 0x03) 8 + byte_val b2).

Definition reserved_bits (data : bytes) : result Z :=
  b1 <- index data 1 ;;
  Ok (Z.shiftr (byte_val b1) 2).

(** The candidate frame of an accumulator: its first [n + 6] bytes, when it
    starts with the preamble, its length word [n] is at most 1024 and it
    holds that many bytes. *)
Definition candidate (data : bytes) : option bytes :=
  if bin_index data RTCM_START =? 0 then
    match length_word data with
    | Ok n =>
        if (n <=? 1024) && (len data >=? n + 6) then Some (slice data 0 (n + 6))
        else None
    | Raise _ => None
    end
  else None.

Definition no_preamble (l : bytes) : Prop :=
  Forall (fun y => byte_val y <> RTCM_START) l.

Definition starts_with_preamble (l : bytes) : Prop :=
  exists x rest, l = x :: rest /\ byte_val x = RTCM_START.

(** The two bytes immediately before offset [idx] are CR LF. *)
Definition crlf_before (data : bytes) (idx : Z) : bool :=
  match nth_error data (Z.to_nat (idx - 2)), nth_error data (Z.to_nat (idx - 1)) with
  | Some a, Some b => (2 <=? idx) && (byte_val a =? 0xd) && (byte_val b =? 0xa)
  | _, _ => false
  end.

(** A 3-byte trailer read as a big-endian 24-bit number. *)
Definition be24 (t : bytes) : Z :=
  fold_left (fun acc b => acc * 256 + byte_val b) t 0.

(** A well-formed frame: preamble, a length word of at most 1024 that
    accounts for the whole frame, and CRC residual 0. *)
Definition valid_frame (frame : bytes) : Prop :=
  starts_with_preamble frame /\
  exists n, length_word frame = Ok n /\ n <= 1024 /\
            len frame = n + 6 /\ crc24 frame = Ok 0.

(** The accumulator that [get_msg] sees after [receive_rtcm] has appended
    the polled block. *)
Definition accumulated (data : bytes) (part : option bytes) : bytes :=
  match part with
  | Some (b :: p) => data ++ b :: p
  | _ => data
  end.

(** The table as a total function, and the CRC register kept to 24 bits. *)
Definition tab (i : Z) : Z := nth (Z.to_nat i) CRC24_TABLE 0.

Definition step24 (s b : Z) : Z :=
  Z.lxor ((s mod 65536) * 256) (tab (Z.lxor b (s / 65536))).

Definition crc24_pure (data : bytes) : Z :=
  fold_left (fun s b => step24 s (byte_val b)) data 0.

(** Step 3 of the framing algorithm with the header length read as the
    10-bit field, as the frame format describes it. *)
Definition get_msg_10bit (data : bytes) : result (bytes * bytes) :=
  let d : bytes := [] in
  let idx := bin_index data RTCM_START in
  text <- (if idx >? 3 then
             x <- index data (idx - 2) ;;
             if byte_val x =? 0xd then
               y <- index data (idx - 1) ;; Ok (byte_val y =? 0xa)
             else Ok false
           else Ok false) ;;
  if text then
    Ok (slice data 0 idx, slice_from data idx)
  else if (idx =? 0) && (len data >? 2) then
    n <- ten_bit_length data ;;
    if n >? 1024 then
      Ok ([], [])
    else if len data >=? n + 6 then
      let d := slice data 0 (n + 6) in
      crc <- crc24 d ;;
      if crc =? 0 then Ok (d, slice_from data (len d))
      else Ok ([], [])
    else Ok (d, data)
  else if idx >? 0 then
    Ok (d, slice_from data idx)
  else Ok (d, data).

(** A frame of message type 1005 (station position), 19 payload bytes. *)
Definition frame1005 : bytes :=
  [xd3; x00; x13; x3e; xd7; xd3; x02; x02; x98; x0e; xde; xef; x34;
   xb4; xbd; x62; xac; x09; x41; x98; x6f; x33; x36; x0b; x98]%byte.

(** *** The source table *)

Section SourceTable.
Context `{Parsers}.
Local Open Scope string_scope.

Definition entry : Type := string * num * num.

Definition get_sourcetable_name_pos (line : string) : string * string * num * num :=
  let data := split ";" line in
  let sentinel := ("", "", PInt 0, PInt 0) in
  if len data >? 10 then
    try_except
      (country <- index data 8 ;;
       name <- index data 1 ;;
       s9 <- index data 9 ;;
       lat <- py_float (PStr s9) ;;
       s10 <- index data 10 ;;
       lon <- py_float (PStr s10) ;;
       Ok (country, name, PFloat lat, PFloat lon))
      sentinel
  else sentinel.

(** [c = ";%s;" % country.upper() if country else ";"] *)
Definition country_pattern (country : pyval) : string :=
  match country with
  | PStr (String a s) => ";" +:+ upper (String a s) +:+ ";"
  | _ => ";"
  end.

(** [[line for line in lines if line.startswith("STR;") and c in line]] *)
Definition select_lines (c : string) (lines : list string) : list string :=
  List.filter (fun line => startswith line "STR;" && contains c line) lines.

(** The loop [for line in self.sourcelines: ... self.sources[name] = ...] *)
Definition add_source (sources : gmap string entry) (line : string) : gmap string entry :=
  let '(country, name, lat, lon) := get_sourcetable_name_pos line in
  <[name := (country, lat, lon)]> sources.

Definition build_sources (sourcelines : list string) : gmap string entry :=
  fold_left add_source sourcelines ∅.

(** [get_sourcetable] on the text [table] that [receive_text] returned:
    the new [self.sourcelines], the new [self.sources] and the returned
    count. *)
Definition get_sourcetable (country : pyval) (table : string)
  : list string * gmap string entry * Z :=
  let c := country_pattern country in
  let lines := split "010" table in
  let sourcelines := select_lines c lines in
  (sourcelines, build_sources sourcelines, len sourcelines).

(** A line that [get_sourcetable_name_pos] does not read: fewer than 11
    fields, or a latitude or longitude field that [float()] rejects. *)
Definition malformed (line : string) : bool :=
  let data := split ";" line in
  (len data <? 11)%Z ||
  match nth_error data 9, nth_error data 10 with
  | Some la, Some lo =>
      match float_of_str la, float_of_str lo with
      | Some _, Some _ => false
      | _, _ => true
      end
  | _, _ => true
  end.

Definition sentinel_entry : entry := ("", PInt 0, PInt 0).

End SourceTable.

End Ntrip.

(** ** gpsdecoder.py *)

Module Gps.
Import Py.
Local Open Scope string_scope.
Local Open Scope Z_scope.

(** The comprehension [{S[i]: i for i in range(len(S))}]. *)
Fixpoint field_dict_from (i : Z) (names : list string) (m : gmap string Z) : gmap string Z :=
  match names with
  | [] => m
  | s :: rest => field_dict_from (i + 1) rest (<[s := i]> m)
  end.

Definition field_dict (names : list string) : gmap string Z :=
  field_dict_from 0 names ∅.

Definition RMC_S : list string :=
  ["id"; "time"; "status"; "lat"; "NS"; "lon"; "EW";
   "spd"; "cog"; "date"; "mv"; "mvEW"; "posMode"; "navStatus"].
Definition RMC : gmap string Z := field_dict RMC_S.

Definition GSA_S : list string :=
  ["id"; "opMode"; "navMode"; "sat1"; "sat2"; "sat3"; "sat4";
   "sat5"; "sat6"; "sat7"; "sat8"; "sat9"; "sat10"; "sat11"; "sat12";
   "PDOP"; "HDOP"; "VDOP"].
Definition GSA : gmap string Z := field_dict GSA_S.

Definition GGA_S : list string :=
  ["id"; "time"; "lat"; "NS"; "lon"; "EW"; "quality"; "nsats";
   "HDOP"; "alt"; "altUnit"; "sep"; "sepUnit"; "diffAge"; "diffStation"].
Definition GGA : gmap string Z := field_dict GGA_S.

Definition qualstrs : list string :=
  ["No fix"; "GNSS fix"; "GNSS fix"; "?"; "RTK fix"; "RTK float"; "Estimate"].

(** [dict[s]] *)
Definition dict_get (dict : gmap string Z) (s : string) : result Z :=
  match dict !! s with
  | Some i => Ok i
  | None => Raise KeyError
  end.

Definition getval (data : list string) (dict : gmap string Z) (s : string) : result pyval :=
  i <- dict_get dict s ;;
  if i <? len data then x <- index data i ;; Ok (PStr x)
  else Ok PNone.

Section Decoder.
Context `{Parsers}.

Definition str2int (str : pyval) (default : Z) : Z :=
  try_except (py_int str) default.

Definition str2float (str : pyval) (default : num) : num :=
  try_except (f <- py_float str ;; Ok (PFloat f)) default.

(** [degmin_deg(dm, nsew)]; the decoder always passes both arguments. *)
Definition degmin_deg (dm nsew : pyval) : result float :=
  let deg := 0.0%float in
  l <- py_len dm ;;
  guard <- (if l >=? 4 then py_in nsew "NSEW" else Ok false) ;;
  if guard then
    ns <- py_in nsew "NS" ;;
    let n := if ns then 2 else 3 in
    hd <- py_getslice dm 0 n ;;
    d <- py_float hd ;;
    tl <- py_getslice_from dm n ;;
    m <- py_float tl ;;
    let deg := (d + m / 60.0)%float in
    Ok (if py_eq nsew "S" || py_eq nsew "W" then (- deg)%float else deg)
  else Ok deg.

(** The attributes of [GpsDecode] that the decoder holds (the serial port
    and the receive queue are not part of the decoding). *)
Record GpsDecode : Set := {
  lat : num; lon : num; alt : num; quality : Z;
  pdop : num; hdop : num; vdop : num; nsats : Z;
  hour : Z; min : Z; sec : num
}.

(** [__init__] *)
Definition init : GpsDecode :=
  {| lat := PInt 0; lon := PInt 0; alt := PInt 0; quality := 0;
     pdop := PInt 0; hdop := PInt 0; vdop := PInt 0; nsats := 0;
     hour := 0; min := 0; sec := PInt 0 |}.

Definition set_lat v (s : GpsDecode) : GpsDecode :=
  {| lat := v; lon := lon s; alt := alt s; quality := quality s;
     pdop := pdop s; hdop := hdop s; vdop := vdop s; nsats := nsats s;
     hour := hour s; min := min s; sec := sec s |}.
Definition set_lon v (s : GpsDecode) : GpsDecode :=
  {| lat := lat s; lon := v; alt := alt s; quality := quality s;
     pdop := pdop s; hdop := hdop s; vdop := vdop s; nsats := nsats s;
     hour := hour s; min := min s; sec := sec s |}.
Definition set_alt v (s : GpsDecode) : GpsDecode :=
  {| lat := lat s; lon := lon s; alt := v; quality := quality s;
     pdop := pdop s; hdop := hdop s; vdop := vdop s; nsats := nsats s;
     hour := hour s; min := min s; sec := sec s |}.
Definition set_quality v (s : GpsDecode) : GpsDecode :=
  {| lat := lat s; lon := lon s; alt := alt s; quality := v; pdop := pdop s;
     hdop := hdop s; vdop := vdop s; nsats := nsats s; hour := hour s;
     min := min s; sec := sec s |}.
Definition set_pdop v (s : GpsDecode) : GpsDecode :=
  {| lat := lat s; lon := lon s; alt := alt s; quality := quality s;
     pdop := v; hdop := hdop s; vdop := vdop s; nsats := nsats s;
     hour := hour s; min := min s; sec := sec s |}.
Definition set_hdop v (s : GpsDecode) : GpsDecode :=
  {| lat := lat s; lon := lon s; alt := alt s; quality := quality s;
     pdop := pdop s; hdop := v; vdop := vdop s; nsats := nsats s;
     hour := hour s; min := min s; sec := sec s |}.
Definition set_vdop v (s : GpsDecode) : GpsDecode :=
  {| lat := lat s; lon := lon s; alt := alt s; quality := quality s;
     pdop := pdop s; hdop := hdop s; vdop := v; nsats := nsats s;
     hour := hour s; min := min s; sec := sec s |}.
Definition set_nsats v (s : GpsDecode) : GpsDecode :=
  {| lat := lat s; lon := lon s; alt := alt s; quality := quality s;
     pdop := pdop s; hdop := hdop s; vdop := vdop s; nsats := v;
     hour := hour s; min := min s; sec := sec s |}.
Definition set_hour v (s : GpsDecode) : GpsDecode :=
  {| lat := lat s; lon := lon s; alt := alt s; quality := quality s;
     pdop := pdop s; hdop := hdop s; vdop := vdop s; nsats := nsats s;
     hour := v; min := min s; sec := sec s |}.
Definition set_min v (s : GpsDecode) : GpsDecode :=
  {| lat := lat s; lon := lon s; alt := alt s; quality := quality s;
     pdop := pdop s; hdop := hdop s; vdop := vdop s; nsats := nsats s;
     hour := hour s; min := v; sec := sec s |}.
Definition set_sec v (s : GpsDecode) : GpsDecode :=
  {| lat := lat s; lon := lon s; alt := alt s; quality := quality s;
     pdop := pdop s; hdop := hdop s; vdop := vdop s; nsats := nsats s;
     hour := hour s; min := min s; sec := v |}.

(** A method of [GpsDecode]: it returns or raises, and leaves the object as
    it was assigned up to that point. *)
Definition M (A : Type) : Type := GpsDecode -> result A * GpsDecode.

Definition mret {A} (a : A) : M A := fun s => (Ok a, s).

Definition mbind {A B} (m : M A) (k : A -> M B) : M B :=
  fun s =>
    match m s with
    | (Ok a, s') => k a s'
    | (Raise e, s') => (Raise e, s')
    end.

Definition lift {A} (r : result A) : M A := fun s => (r, s).

Definition assign (f : GpsDecode -> GpsDecode) : M unit := fun s => (Ok tt, f s).

Notation "x <~ m ;; k" := (mbind m (fun x => k))
  (at level 100, m at next level, right associativity).
Notation "m ;;; k" := (mbind m (fun _ => k))
  (at level 100, right associativity).

(** What [decode] returns: [""], [True] or [False]. *)
Inductive retval : Set :=
| RStr (s : string)
| RBool (b : bool).

Definition decode (line : string) : M retval :=
  let data := split "," (str_slice line 0 (-3)) in
  if len data <? 3 then mret (RStr "")
  else
    id <~ lift (index data 0) ;;
    if String.eqb id "$GPGSA" || String.eqb id "$GNGSA" then
      v <~ lift (getval data GSA "PDOP") ;;
      assign (set_pdop (str2float v (PFloat 99.99))) ;;;
      v <~ lift (getval data GSA "HDOP") ;;
      assign (set_hdop (str2float v (PFloat 99.99))) ;;;
      v <~ lift (getval data GSA "VDOP") ;;
      assign (set_vdop (str2float v (PFloat 99.99))) ;;;
      mret (RBool false)
    else if String.eqb id "$GPGGA" || String.eqb id "$GNGGA" then
      t <~ lift (getval data RMC "time") ;;
      hh <~ lift (py_getslice t 0 2) ;;
      assign (set_hour (str2int hh 0)) ;;;
      mm <~ lift (py_getslice t 2 4) ;;
      assign (set_min (str2int mm 0)) ;;;
      ss <~ lift (py_getslice_from t 4) ;;
      assign (set_sec (str2float ss (PInt 0))) ;;;
      dm <~ lift (getval data GGA "lat") ;;
      ns <~ lift (getval data GGA "NS") ;;
      deg <~ lift (degmin_deg dm ns) ;;
      assign (set_lat (PFloat deg)) ;;;
      dm <~ lift (getval data GGA "lon") ;;
      ew <~ lift (getval data GGA "EW") ;;
      deg <~ lift (degmin_deg dm ew) ;;
      assign (set_lon (PFloat deg)) ;;;
      v <~ lift (getval data GGA "quality") ;;
      assign (set_quality (str2int v 0)) ;;;
      v <~ lift (getval data GGA "nsats") ;;
      assign (set_nsats (str2int v 0)) ;;;
      v <~ lift (getval data GGA "HDOP") ;;
      assign (set_hdop (str2float v (PFloat 99.99))) ;;;
      v <~ lift (getval data GGA "alt") ;;
      assign (set_alt (str2float v (PInt 0))) ;;;
      mret (RBool true)
    else mret (RBool false).

Definition qualstr : M string :=
  fun self =>
    (if quality self <? len qualstrs then index qualstrs (quality self) else Ok "?",
     self).

End Decoder.

(** The hemisphere codes. *)
Definition is_hemisphere (h : string) : Prop :=
  h = "N" \/ h = "S" \/ h = "E" \/ h = "W".

End Gps.

(** ** ntripdecoder.py: the bit-field reader and the message reader *)

Module Rtcm.
Import Py Ntrip.
Local Open Scope Z_scope.

(** [x << n]: a negative shift count raises [ValueError]. *)
Definition py_lshift (x n : Z) : result Z :=
  if n <? 0 then Raise ValueError else Ok (Z.shiftl x n).

(** The loop of [getbits2] over [range(oset, oset+nbits)], [count]
    iterations from bit [n] on. *)
Fixpoint getbits2_loop (a : bytes) (n : Z) (count : nat) (res : Z) : result Z :=
  match count with
  | O => Ok res
  | S count' =>
      let byt := n / 8 in
      let bit := 7 - Z.land n 7 in
      x <- index a byt ;;
      getbits2_loop a (n + 1) count'
        (Z.lor (Z.shiftl res 1) (Z.land (Z.shiftr (byte_val x) bit) 1))
  end.

Definition getbits2 (a : bytes) (oset nbits : Z) : result Z :=
  res <- getbits2_loop a oset (Z.to_nat nbits) 0 ;;
  top <- py_lshift 1 (nbits - 1) ;;
  if negb (Z.land res top =? 0) then
    full <- py_lshift 1 nbits ;;
    Ok (res - full)
  else Ok res.

(** [msg_type] reads [data] and may append to [self.msg_types]: the result
    is the returned type and the new list. *)
Definition msg_type (msg_types : list Z) (data : bytes) : result (Z * list Z) :=
  d0 <- index data 0 ;;
  typ <- (if negb (byte_val d0 =? RTCM_START) then Ok 0
          else
            d3 <- index data 3 ;;
            d4 <- index data 4 ;;
            Ok (Z.shiftl (byte_val d3) 4 + Z.shiftr (byte_val d4) 4)) ;;
  if negb (typ =? 0) && negb (existsb (Z.eqb typ) msg_types)
  then Ok (typ, msg_types ++ [typ])
  else Ok (typ, msg_types).

(** [int * float]: the integer is converted, exactly below 2^53. *)
Definition float_of_int (z : Z) : float :=
  if z <? 0 then (- float_of_Z (- z))%float else float_of_Z z.

Section Decode1006.
(** [xyz_llh] is floating-point trigonometry; [decode_1006] is modelled
    over it. *)
Variable xyz_llh : float -> float -> float -> result (num * num * num).

Definition decode_1006 (data : bytes) : result (num * num * num) :=
  let res := (PInt 0, PInt 0, PInt 0) in
  msg_num <- getbits2 (slice_from data 3) 0 12 ;;
  if (msg_num =? 1005) || (msg_num =? 1006) then
    xi <- getbits2 (slice_from data 3) 34 38 ;;
    let x := (float_of_int xi * 0.0001)%float in
    yi <- getbits2 (slice_from data 3) 74 38 ;;
    let y := (float_of_int yi * 0.0001)%float in
    zi <- getbits2 (slice_from data 3) 114 38 ;;
    let z := (float_of_int zi * 0.0001)%float in
    xyz_llh x y z
  else Ok res.

End Decode1006.

(** The big-endian number that a byte string spells. *)
Definition be_value (a : bytes) : Z :=
  fold_left (fun acc b => acc * 256 + byte_val b) a 0.

(** The [nbits]-bit field at bit offset [oset] of [a], most significant
    bit first, as an unsigned number. *)
Definition bit_field (a : bytes) (oset nbits : Z) : Z :=
  (be_value a / 2 ^ (8 * len a - oset - nbits)) mod 2 ^ nbits.

(** The two's complement reading of an [nbits]-bit number. *)
Definition signed (nbits u : Z) : Z :=
  if u <? 2 ^ (nbits - 1) then u else u - 2 ^ nbits.

End Rtcm.

(** ** gpsdecoder.py: the serial reader and the sentence check *)

Module GpsIO.
Import Py Ntrip.
Local Open Scope string_scope.
Local Open Scope Z_scope.

(** The characters that [str.strip()] removes, among the 256 that
    [chr] of a byte can give. *)
Definition is_space (c : ascii) : bool :=
  let n := nat_of_ascii c in
  ((9 <=? n)%nat && (n <=? 13)%nat) || ((28 <=? n)%nat && (n <=? 32)%nat)
  || (n =? 133)%nat || (n =? 160)%nat.

Fixpoint lstrip_chars (l : list ascii) : list ascii :=
  match l with
  | c :: rest => if is_space c then lstrip_chars rest else l
  | [] => []
  end.

(** [s.strip()] *)
Definition strip (s : string) : string :=
  string_of_list_ascii
    (rev (lstrip_chars (rev (lstrip_chars (list_ascii_of_string s))))).

(** [s[i]] on a string. *)
Definition str_index (s : string) (i : Z) : result ascii :=
  index (list_ascii_of_string s) i.

(** [ord(c)] *)
Definition ord (c : ascii) : Z := Z.of_nat (nat_of_ascii c).

(** [reduce(lambda x,y: x^y, [ord(c) for c in s], 0)] *)
Definition xor_fold (s : string) : Z :=
  fold_left (fun x c => Z.lxor x (ord c)) (list_ascii_of_string s) 0.

Definition hex_digit (c : ascii) : option Z :=
  let n := ord c in
  if (48 <=? n) && (n <=? 57) then Some (n - 48)
  else if (65 <=? n) && (n <=? 70) then Some (n - 55)
  else if (97 <=? n) && (n <=? 102) then Some (n - 87)
  else None.

(** [int(s, 16)] restricted to strings of hexadecimal digits. *)
Definition int16_of_hex (s : string) : option Z :=
  match s with
  | EmptyString => None
  | _ =>
      fold_left
        (fun acc c =>
           match acc, hex_digit c with
           | Some a, Some d => Some (16 * a + d)
           | _, _ => None
           end)
        (list_ascii_of_string s) (Some 0)
  end.

Section Read.
(** [int(s, 16)], [None] standing for its [ValueError]. *)
Variable int16_of_str : string -> option Z.

(** [read] on the queue [rxq] (next item first): what it returns or
    raises, and the queue it leaves. *)
Definition read (rxq : list string) : result string * list string :=
  let line := "" in
  match rxq with
  | [] => (Ok line, rxq)
  | item :: rxq' =>
      let line := strip item in
      (bad <- (if str_len line <? 9 then Ok true
               else
                 c0 <- str_index line 0 ;;
                 if negb (Ascii.eqb c0 "$") then Ok true
                 else c3 <- str_index line (-3) ;; Ok (negb (Ascii.eqb c3 "*"))) ;;
       if bad then Ok ""
       else
         let csum := xor_fold (str_slice line 1 (-3)) in
         v <- match int16_of_str (str_slice_from line (-2)) with
              | Some v => Ok v
              | None => Raise ValueError
              end ;;
         if negb (csum =? v) then Ok "" else Ok line,
       rxq')
  end.

End Read.

(** [data.find(b)] *)
Definition bytes_find (data : bytes) (b : Z) : Z :=
  try_except (bytes_index data b) (-1).

(** ["".join(map(chr, l))] *)
Definition chr_join (l : bytes) : string :=
  string_of_list_ascii (map ascii_of_byte l).

(** One turn of the loop of [ser_in]: [s] is what was read when bytes were
    waiting, [None] otherwise; the result is the new [line] and the queue
    after the [put], if any. *)
Definition ser_in_step (line : bytes) (rxq : list string) (s : option bytes)
  : bytes * list string :=
  let line := match s with Some s => (line ++ s)%list | None => line end in
  let n := bytes_find line 10 in
  if n >=? 0
  then (slice_from line (n + 1), (rxq ++ [chr_join (slice line 0 (n + 1))])%list)
  else (line, rxq).

(** The bytes of a queued line. *)
Definition str_bytes (s : string) : bytes :=
  map byte_of_ascii (list_ascii_of_string s).

(** Field [j] of a split sentence, [None] when the sentence is too short
    to have it. *)
Definition field (data : list string) (j : nat) : pyval :=
  match nth_error data j with Some x => PStr x | None => PNone end.

End GpsIO.

(** ** The header length as the frame format gives it *)

Module Header.
Import Py Ntrip.
Local Open Scope Z_scope.

(** A frame that is well formed by the 10-bit length of its header:
    preamble, a 10-bit length of at most 1024 that accounts for the whole
    frame, and CRC residual 0. The six reserved bits are not looked at. *)
Definition valid_frame_10bit (frame : bytes) : Prop :=
  starts_with_preamble frame /\
  exists n, ten_bit_length frame = Ok n /\ n <= 1024 /\
            len frame = n + 6 /\ crc24 frame = Ok 0.

(** The header [d3 04 00] (length word 1024, 10-bit length 0), 1024 zero
    bytes and the CRC of all that. *)
Definition frame_word_1024 : bytes :=
  ([xd3; x04; x00] ++ repeat x00 1024 ++ [x0c; xc2; xcb])%byte.

(** A frame of six bytes whose header has a reserved bit set: 10-bit
    length 0, length word 2048, CRC residual 0. *)
Definition frame_reserved_bit : bytes :=
  [xd3; x08; x00; x7f; x09; xfd]%byte.

(** [frame1005] with one payload byte changed. *)
Definition frame1005_damaged : bytes :=
  [xd3; x00; x13; x3e; xd7; xd3; x02; x02; x98; x0e; x00; xef; x34;
   xb4; xbd; x62; xac; x09; x41; x98; x6f; x33; x36; x0b; x98]%byte.


End Header.

(** * Properties *)

(** ** Python primitives *)

Module PyFacts.
Import Py.
Local Open Scope Z_scope.

Lemma len_nonneg {A} (l : list A) : 0 <= len l.
Proof. unfold len. lia. Qed.

Lemma len_app {A} (l1 l2 : list A) : len (l1 ++ l2) = len l1 + len l2.
Proof. unfold len. rewrite List.length_app. lia. Qed.

Lemma len_cons {A} (x : A) (l : list A) : len (x :: l) = len l + 1.
Proof. unfold len. simpl List.length. lia. Qed.

(** Indexing from the front is [nth_error]. *)
Lemma index_nonneg {A} (l : list A) (i : Z) :
  0 <= i ->
  index l i = match nth_error l (Z.to_nat i) with
              | Some x => Ok x
              | None => Raise IndexError
              end.
Proof.
  intros Hi. unfold index.
  destruct (Z.ltb_spec i 0) as [?|_]; [lia|].
  destruct (Z.leb_spec 0 i) as [_|?]; [|lia]. simpl.
  destruct (Z.ltb_spec i (len l)) as [Hlt|Hge]; [reflexivity|].
  assert (Hn : nth_error l (Z.to_nat i) = None).
  { apply nth_error_None. unfold len in Hge. lia. }
  now rewrite Hn.
Qed.

Lemma index_in_range {A} (l : list A) (i : Z) :
  0 <= i < len l -> exists x, index l i = Ok x /\ nth_error l (Z.to_nat i) = Some x.
Proof.
  intros [Hi Hlt]. rewrite index_nonneg by assumption.
  destruct (nth_error l (Z.to_nat i)) as [x|] eqn:E.
  - now exists x.
  - apply nth_error_None in E. unfold len in Hlt. lia.
Qed.

Lemma index_app_l {A} (l1 l2 : list A) (i : Z) :
  0 <= i < len l1 -> index (l1 ++ l2) i = index l1 i.
Proof.
  intros [Hi Hlt]. rewrite !index_nonneg by assumption.
  rewrite nth_error_app1; [reflexivity|]. unfold len in Hlt. lia.
Qed.

Lemma index_app_r {A} (l1 l2 : list A) (i : Z) :
  0 <= i -> index (l1 ++ l2) (len l1 + i) = index l2 i.
Proof.
  intros Hi. rewrite !index_nonneg by (pose proof (len_nonneg l1); lia).
  rewrite nth_error_app2 by (unfold len; lia).
  replace (Z.to_nat (len l1 + i) - List.length l1)%nat with (Z.to_nat i)
    by (unfold len; lia).
  reflexivity.
Qed.

Lemma clamp_in_range {A} (l : list A) (i : Z) :
  0 <= i <= len l -> clamp l i = i.
Proof.
  intros [H0 H1]. unfold clamp.
  destruct (Z.ltb_spec i 0); lia.
Qed.

(** Slices with bounds inside the list are [firstn] and [skipn]. *)
Lemma slice_prefix {A} (l : list A) (n : Z) :
  0 <= n <= len l -> slice l 0 n = firstn (Z.to_nat n) l.
Proof.
  intros Hn. unfold slice.
  rewrite (clamp_in_range l 0) by (pose proof (len_nonneg l); lia).
  rewrite (clamp_in_range l n) by assumption.
  simpl. now rewrite Z.sub_0_r.
Qed.

Lemma slice_from_suffix {A} (l : list A) (n : Z) :
  0 <= n <= len l -> slice_from l n = skipn (Z.to_nat n) l.
Proof.
  intros Hn. unfold slice_from. now rewrite clamp_in_range.
Qed.

Lemma slice_all {A} (l : list A) : slice l 0 (len l) = l.
Proof.
  rewrite slice_prefix by (pose proof (len_nonneg l); lia).
  unfold len. rewrite Nat2Z.id. apply firstn_all.
Qed.

Lemma slice_from_all {A} (l : list A) : slice_from l (len l) = [].
Proof.
  rewrite slice_from_suffix by (pose proof (len_nonneg l); lia).
  unfold len. rewrite Nat2Z.id. apply skipn_all.
Qed.

Lemma slice_app_l {A} (l1 l2 : list A) : slice (l1 ++ l2) 0 (len l1) = l1.
Proof.
  rewrite slice_prefix by (rewrite len_app; pose proof (len_nonneg l1); pose proof (len_nonneg l2); lia).
  unfold len. rewrite Nat2Z.id.
  rewrite firstn_app, Nat.sub_diag, firstn_all. simpl. apply app_nil_r.
Qed.

Lemma slice_from_app_r {A} (l1 l2 : list A) : slice_from (l1 ++ l2) (len l1) = l2.
Proof.
  rewrite slice_from_suffix by (rewrite len_app; pose proof (len_nonneg l1); pose proof (len_nonneg l2); lia).
  unfold len. rewrite Nat2Z.id.
  rewrite skipn_app, Nat.sub_diag, skipn_all. reflexivity.
Qed.

End PyFacts.

(** ** The 24-bit CRC *)

Module CrcFacts.
Import Py Ntrip PyFacts.
Local Open Scope Z_scope.

Lemma byte_val_range (b : byte) : 0 <= byte_val b < 256.
Proof.
  unfold byte_val. pose proof (Byte.to_N_bounded b) as Hb.
  lia.
Qed.

Lemma land_lxor_distr_r (a b c : Z) :
  Z.land (Z.lxor a b) c = Z.lxor (Z.land a c) (Z.land b c).
Proof.
  apply Z.bits_inj'. intros n _.
  rewrite Z.land_spec, !Z.lxor_spec, !Z.land_spec.
  destruct (Z.testbit a n), (Z.testbit b n), (Z.testbit c n); reflexivity.
Qed.

Lemma lxor_mod_pow2 (a b n : Z) :
  0 <= n -> (Z.lxor a b) mod 2 ^ n = Z.lxor (a mod 2 ^ n) (b mod 2 ^ n).
Proof.
  intros Hn. rewrite <- !Z.land_ones by assumption. apply land_lxor_distr_r.
Qed.

Lemma lxor_range (n a b : Z) :
  0 <= n -> 0 <= a < 2 ^ n -> 0 <= b < 2 ^ n -> 0 <= Z.lxor a b < 2 ^ n.
Proof.
  intros Hn Ha Hb.
  rewrite <- (Z.mod_small a (2 ^ n)), <- (Z.mod_small b (2 ^ n)) by assumption.
  rewrite <- lxor_mod_pow2 by assumption.
  apply Z.mod_pos_bound. apply Z.pow_pos_nonneg; lia.
Qed.

Lemma table_length : List.length CRC24_TABLE = 256%nat.
Proof. reflexivity. Qed.

Lemma tab_index (i : Z) : 0 <= i < 256 -> index CRC24_TABLE i = Ok (tab i).
Proof.
  intros Hi. rewrite index_nonneg by lia. unfold tab.
  rewrite (nth_error_nth' CRC24_TABLE 0) by (rewrite table_length; lia).
  reflexivity.
Qed.

Lemma tab_range (i : Z) : 0 <= i < 256 -> 0 <= tab i < 2 ^ 24.
Proof.
  intros Hi.
  assert (Hall : forallb (fun t => (0 <=? t) && (t <? 2 ^ 24)) CRC24_TABLE = true)
    by (vm_compute; reflexivity).
  rewrite forallb_forall in Hall.
  specialize (Hall (tab i)).
  assert (Hin : In (tab i) CRC24_TABLE).
  { unfold tab. apply nth_In. rewrite table_length. lia. }
  specialize (Hall Hin). apply andb_prop in Hall as [H1 H2].
  apply Z.leb_le in H1. apply Z.ltb_lt in H2. lia.
Qed.

(** The low byte of a table entry vanishes for index 0 only. *)
Lemma tab_low_byte (i : Z) : 0 <= i < 256 -> tab i mod 256 = 0 -> i = 0.
Proof.
  intros Hi Hz.
  assert (Hall : forallb (fun k => negb (tab (Z.of_nat k) mod 256 =? 0) || (k =? 0)%nat)
                         (seq 0 256) = true)
    by (vm_compute; reflexivity).
  rewrite forallb_forall in Hall.
  specialize (Hall (Z.to_nat i)).
  assert (Hin : In (Z.to_nat i) (seq 0 256)) by (apply in_seq; lia).
  specialize (Hall Hin). rewrite Z2Nat.id in Hall by lia.
  rewrite Hz in Hall. simpl in Hall.
  apply Nat.eqb_eq in Hall. lia.
Qed.

Lemma tab_0 : tab 0 = 0.
Proof. reflexivity. Qed.

(** The table lookup of [crc24] never leaves the table. *)
Lemma crc24_step_ok (val b : Z) :
  0 <= b < 256 ->
  crc24_step val b =
  Ok (Z.lxor (Z.shiftl val 8) (tab (Z.lxor b (Z.land (Z.shiftr val 16) 0xff)))).
Proof.
  intros Hb. unfold crc24_step.
  assert (Hm : 0 <= Z.land (Z.shiftr val 16) 0xff < 2 ^ 8).
  { change 0xff with (Z.ones 8). rewrite Z.land_ones by lia.
    apply Z.mod_pos_bound. lia. }
  pose proof (lxor_range 8 b _ ltac:(lia) ltac:(simpl; lia) Hm) as Hx.
  rewrite tab_index by (simpl in Hx; lia). reflexivity.
Qed.

(** Only the low 24 bits of the unbounded register matter. *)
Lemma step_mod (val b : Z) :
  0 <= b < 256 ->
  (Z.lxor (Z.shiftl val 8) (tab (Z.lxor b (Z.land (Z.shiftr val 16) 0xff)))) mod 2 ^ 24
  = step24 (val mod 2 ^ 24) b.
Proof.
  intros Hb. unfold step24.
  assert (Hidx : Z.land (Z.shiftr val 16) 0xff = (val mod 2 ^ 24) / 65536).
  { change 0xff with (Z.ones 8). rewrite Z.land_ones by lia.
    rewrite Z.shiftr_div_pow2 by lia.
    change (2 ^ 16) with 65536. change (2 ^ 8) with 256. change (2 ^ 24) with 16777216.
    Z.div_mod_to_equations. lia. }
  rewrite Hidx.
  set (k := Z.lxor b (val mod 2 ^ 24 / 65536)).
  assert (Hk : 0 <= k < 256).
  { apply (lxor_range 8); [lia|simpl; lia|].
    change (2 ^ 24) with 16777216. change (2 ^ 8) with 256.
    Z.div_mod_to_equations. lia. }
  rewrite lxor_mod_pow2 by lia.
  rewrite (Z.mod_small (tab k)) by (apply tab_range; assumption).
  f_equal.
  rewrite Z.shiftl_mul_pow2 by lia.
  change (2 ^ 8) with 256. change (2 ^ 24) with 16777216.
  Z.div_mod_to_equations. lia.
Qed.

Lemma step24_range (s b : Z) :
  0 <= s < 2 ^ 24 -> 0 <= b < 256 -> 0 <= step24 s b < 2 ^ 24.
Proof.
  intros Hs Hb. unfold step24.
  assert (Hk : 0 <= Z.lxor b (s / 65536) < 256).
  { apply (lxor_range 8); [lia|simpl; lia|].
    change (2 ^ 24) with 16777216 in Hs. change (2 ^ 8) with 256.
    Z.div_mod_to_equations. lia. }
  apply lxor_range; [lia| |apply tab_range; assumption].
  change (2 ^ 24) with 16777216 in *. Z.div_mod_to_equations. lia.
Qed.

Lemma crc24_loop_ok (data : bytes) : forall val,
  exists val', crc24_loop val data = Ok val' /\
               val' mod 2 ^ 24 =
               fold_left (fun s b => step24 s (byte_val b)) data (val mod 2 ^ 24).
Proof.
  induction data as [|b rest IH]; intros val; simpl.
  - now exists val.
  - rewrite crc24_step_ok by apply byte_val_range. simpl.
    destruct (IH (Z.lxor (Z.shiftl val 8)
                    (tab (Z.lxor (byte_val b) (Z.land (Z.shiftr val 16) 0xff)))))
      as (val' & Hloop & Hmod).
    exists val'. split; [exact Hloop|].
    rewrite Hmod. now rewrite step_mod by apply byte_val_range.
Qed.

(** [crc24] is total and computes the 24-bit register. *)
Lemma crc24_eq (data : bytes) : crc24 data = Ok (crc24_pure data).
Proof.
  unfold crc24, crc24_pure.
  destruct (crc24_loop_ok data 0) as (val' & Hloop & Hmod).
  rewrite Hloop. simpl. f_equal.
  change 0xffffff with (Z.ones 24). rewrite Z.land_ones by lia.
  exact Hmod.
Qed.

Lemma fold_step24_range (data : bytes) : forall s,
  0 <= s < 2 ^ 24 ->
  0 <= fold_left (fun s b => step24 s (byte_val b)) data s < 2 ^ 24.
Proof.
  induction data as [|b rest IH]; intros s Hs; simpl; [assumption|].
  apply IH. apply step24_range; [assumption|apply byte_val_range].
Qed.

Lemma crc24_pure_range (data : bytes) : 0 <= crc24_pure data < 2 ^ 24.
Proof. apply fold_step24_range. simpl. lia. Qed.

Lemma crc24_pure_app (m t : bytes) :
  crc24_pure (m ++ t) = fold_left (fun s b => step24 s (byte_val b)) t (crc24_pure m).
Proof. unfold crc24_pure. apply fold_left_app. Qed.

Lemma step24_low (s b : Z) :
  step24 s b mod 256 = tab (Z.lxor b (s / 65536)) mod 256.
Proof.
  unfold step24. change 256 with (2 ^ 8) at 2 3.
  rewrite lxor_mod_pow2 by lia. change (2 ^ 8) with 256.
  rewrite Z.mod_mul by lia. apply Z.lxor_0_l.
Qed.

Lemma step24_match (s : Z) : step24 s (s / 65536) = (s mod 65536) * 256.
Proof.
  unfold step24. rewrite Z.lxor_nilpotent, tab_0. apply Z.lxor_0_r.
Qed.

(** A step whose result has a zero low byte consumed the top byte of the
    register. *)
Lemma step24_zero_low (s b : Z) :
  0 <= s < 2 ^ 24 -> 0 <= b < 256 ->
  step24 s b mod 256 = 0 ->
  b = s / 65536 /\ step24 s b = (s mod 65536) * 256.
Proof.
  intros Hs Hb Hz. rewrite step24_low in Hz.
  assert (Hk : 0 <= Z.lxor b (s / 65536) < 256).
  { apply (lxor_range 8); [lia|simpl; lia|].
    change (2 ^ 24) with 16777216 in Hs. change (2 ^ 8) with 256.
    Z.div_mod_to_equations. lia. }
  apply tab_low_byte in Hz; [|assumption].
  apply Z.lxor_eq in Hz. subst b. split; [reflexivity|apply step24_match].
Qed.

(** The residual of a message followed by three bytes is 0 exactly when
    the three bytes are the CRC of the message, most significant first. *)
Lemma crc24_residual (m t : bytes) :
  List.length t = 3%nat ->
  crc24 (m ++ t) = Ok 0 <-> crc24 m = Ok (be24 t).
Proof.
  intros Ht.
  destruct t as [|x [|y [|z [|? ?]]]]; try discriminate. clear Ht.
  rewrite !crc24_eq, crc24_pure_app. unfold be24. simpl fold_left.
  pose proof (crc24_pure_range m) as Hs. set (s := crc24_pure m) in *.
  pose proof (byte_val_range x) as Hx.
  pose proof (byte_val_range y) as Hy.
  pose proof (byte_val_range z) as Hz.
  pose proof (step24_range s _ Hs Hx) as H1.
  pose proof (step24_range _ _ H1 Hy) as H2.
  change (2 ^ 24) with 16777216 in *.
  split; intros E; injection E as E; f_equal.
  - assert (E3 : step24 (step24 (step24 s (byte_val x)) (byte_val y)) (byte_val z) mod 256 = 0)
      by (rewrite E; reflexivity).
    apply step24_zero_low in E3 as [Ez E3]; [|assumption..].
    rewrite E3 in E.
    assert (E2 : step24 (step24 s (byte_val x)) (byte_val y) mod 256 = 0)
      by (Z.div_mod_to_equations; lia).
    apply step24_zero_low in E2 as [Ey E2]; [|assumption..].
    assert (E1 : step24 s (byte_val x) mod 256 = 0)
      by (rewrite E2 in E; Z.div_mod_to_equations; lia).
    apply step24_zero_low in E1 as [Ex E1]; [|assumption..].
    rewrite E2 in Ez. rewrite E1 in Ey, Ez.
    Z.div_mod_to_equations. lia.
  - assert (Ex : byte_val x = s / 65536) by (Z.div_mod_to_equations; lia).
    rewrite Ex, step24_match.
    assert (Ey : byte_val y = (s mod 65536 * 256) / 65536)
      by (Z.div_mod_to_equations; lia).
    rewrite Ey, step24_match.
    assert (Ez : byte_val z = ((s mod 65536 * 256) mod 65536 * 256) / 65536)
      by (Z.div_mod_to_equations; lia).
    rewrite Ez, step24_match.
    Z.div_mod_to_equations. lia.
Qed.

End CrcFacts.

(** ** The stream reassembler *)

Module ReassemblerFacts.
Import Py Ntrip PyFacts CrcFacts.
Local Open Scope Z_scope.

Lemma bytes_index_found (b : Z) (data : bytes) : forall i,
  bytes_index data b = Ok i ->
  exists pre x post,
    data = pre ++ x :: post /\ len pre = i /\ byte_val x = b /\
    Forall (fun y => byte_val y <> b) pre.
Proof.
  induction data as [|x rest IH]; intros i Hi; simpl in Hi; [discriminate|].
  destruct (Z.eqb_spec (byte_val x) b) as [Heq|Hne].
  - injection Hi as <-. exists [], x, rest. repeat split; auto.
  - destruct (bytes_index rest b) as [j|e] eqn:Ej; simpl in Hi; [|discriminate].
    injection Hi as <-.
    destruct (IH j eq_refl) as (pre & y & post & -> & Hlen & Hy & Hpre).
    exists (x :: pre), y, post. repeat split; auto.
    rewrite len_cons. lia.
Qed.

Lemma bytes_index_missing (b : Z) (data : bytes) : forall e,
  bytes_index data b = Raise e -> Forall (fun y => byte_val y <> b) data.
Proof.
  induction data as [|x rest IH]; intros e He; simpl in He; [constructor|].
  destruct (Z.eqb_spec (byte_val x) b) as [Heq|Hne]; [discriminate|].
  destruct (bytes_index rest b) as [j|e'] eqn:Ej; simpl in He; [discriminate|].
  constructor; eauto.
Qed.

Lemma bytes_index_app (b : Z) (pre : bytes) (x : byte) (post : bytes) :
  Forall (fun y => byte_val y <> b) pre -> byte_val x = b ->
  bytes_index (pre ++ x :: post) b = Ok (len pre).
Proof.
  intros Hpre Hx. induction Hpre as [|y pre Hy Hpre IH]; simpl.
  - apply Z.eqb_eq in Hx. now rewrite Hx.
  - apply Z.eqb_neq in Hy. rewrite Hy, IH. simpl. now rewrite len_cons.
Qed.

(** [bin_index] is -1 when the byte is absent, and otherwise the length of
    the prefix before its first occurrence. *)
Lemma bin_index_spec (data : bytes) (b : Z) :
  (bin_index data b = -1 /\ Forall (fun y => byte_val y <> b) data) \/
  (exists pre x post,
     data = pre ++ x :: post /\ bin_index data b = len pre /\ byte_val x = b /\
     Forall (fun y => byte_val y <> b) pre).
Proof.
  unfold bin_index. destruct (bytes_index data b) as [i|e] eqn:E; simpl.
  - right. destruct (bytes_index_found _ _ _ E) as (pre & x & post & ? & ? & ? & ?).
    exists pre, x, post. repeat split; auto.
  - left. split; [reflexivity|]. eapply bytes_index_missing; eauto.
Qed.

Lemma bin_index_app (b : Z) (pre : bytes) (x : byte) (post : bytes) :
  Forall (fun y => byte_val y <> b) pre -> byte_val x = b ->
  bin_index (pre ++ x :: post) b = len pre.
Proof.
  intros Hpre Hx. unfold bin_index. now rewrite bytes_index_app.
Qed.

Lemma bin_index_range (data : bytes) (b : Z) :
  -1 <= bin_index data b < len data \/ (bin_index data b = -1 /\ data = []).
Proof.
  destruct (bin_index_spec data b) as [[E _]|(pre & x & post & -> & E & _)].
  - rewrite E. destruct data; [right; auto|left]. rewrite len_cons.
    pose proof (len_nonneg data). lia.
  - left. rewrite E, len_app, len_cons.
    pose proof (len_nonneg pre). pose proof (len_nonneg post). lia.
Qed.

Lemma bin_index_zero (data : bytes) (b : Z) :
  bin_index data b = 0 <-> exists x rest, data = x :: rest /\ byte_val x = b.
Proof.
  split.
  - intros E. destruct (bin_index_spec data b) as [[E' _]|(pre & x & post & -> & E' & Hx & _)].
    + congruence.
    + rewrite E in E'. destruct pre as [|p pre].
      * now exists x, post.
      * rewrite len_cons in E'. pose proof (len_nonneg pre). lia.
  - intros (x & rest & -> & Hx). now apply (bin_index_app b [] x rest).
Qed.

(** The test [idx>3 and self.data[idx-2]==0xd and self.data[idx-1]==0xa]
    never indexes out of range. *)
Lemma text_test (data : bytes) (idx : Z) :
  idx <= len data ->
  (if idx >? 3 then
     x <- index data (idx - 2) ;;
     if byte_val x =? 0xd then
       y <- index data (idx - 1) ;; Ok (byte_val y =? 0xa)
     else Ok false
   else Ok false)
  = Ok ((3 <? idx) && crlf_before data idx).
Proof.
  intros Hle. rewrite Z.gtb_ltb.
  destruct (Z.ltb_spec 3 idx) as [H3|H3]; [|reflexivity]. simpl.
  destruct (index_in_range data (idx - 2) ltac:(lia)) as (x & Ex & Nx).
  destruct (index_in_range data (idx - 1) ltac:(lia)) as (y & Ey & Ny).
  unfold crlf_before. rewrite Ex, Nx, Ny. simpl.
  destruct (Z.leb_spec 2 idx); [|lia]. simpl.
  destruct (byte_val x =? 13); simpl; [now rewrite Ey|reflexivity].
Qed.

Lemma bin_index_le_len (data : bytes) (b : Z) : bin_index data b <= len data.
Proof.
  destruct (bin_index_range data b) as [?|[E ->]]; [lia|]. rewrite E. unfold len. simpl. lia.
Qed.

(** [get_msg] with its indexing resolved. *)
Lemma get_msg_unfold (data : bytes) :
  get_msg data =
  let idx := bin_index data RTCM_START in
  if (3 <? idx) && crlf_before data idx then
    Ok (slice data 0 idx, slice_from data idx)
  else if (idx =? 0) && (2 <? len data) then
    match length_word data with
    | Ok n =>
        if 1024 <? n then Ok ([], [])
        else if n + 6 <=? len data then
          if crc24_pure (slice data 0 (n + 6)) =? 0
          then Ok (slice data 0 (n + 6), slice_from data (len (slice data 0 (n + 6))))
          else Ok ([], [])
        else Ok ([], data)
    | Raise e => Raise e
    end
  else if 0 <? idx then Ok ([], slice_from data idx)
  else Ok ([], data).
Proof.
  unfold get_msg. cbv zeta.
  rewrite text_test by apply bin_index_le_len. simpl bind.
  destruct ((3 <? bin_index data RTCM_START) && crlf_before data (bin_index data RTCM_START));
    [reflexivity|].
  rewrite !Z.gtb_ltb.
  destruct ((bin_index data RTCM_START =? 0) && (2 <? len data)); [|reflexivity].
  unfold length_word.
  destruct (index data 1) as [b1|e]; simpl; [|reflexivity].
  destruct (index data 2) as [b2|e]; simpl; [|reflexivity].
  rewrite Z.gtb_ltb, Z.geb_leb.
  destruct (1024 <? _); [reflexivity|].
  destruct (_ <=? len data); [|reflexivity].
  rewrite crc24_eq. reflexivity.
Qed.

Lemma length_word_ok (data : bytes) :
  2 < len data ->
  exists b1 b2, index data 1 = Ok b1 /\ index data 2 = Ok b2 /\
    length_word data = Ok (byte_val b1 * 256 + byte_val b2) /\
    0 <= byte_val b1 * 256 + byte_val b2 < 65536.
Proof.
  intros Hl.
  destruct (index_in_range data 1 ltac:(lia)) as (b1 & E1 & _).
  destruct (index_in_range data 2 ltac:(lia)) as (b2 & E2 & _).
  exists b1, b2. unfold length_word. rewrite E1, E2. simpl.
  rewrite Z.shiftl_mul_pow2 by lia. change (2 ^ 8) with 256.
  pose proof (byte_val_range b1). pose proof (byte_val_range b2).
  repeat split; auto; lia.
Qed.

Lemma no_preamble_bin_index (l : bytes) :
  no_preamble l -> bin_index l RTCM_START = -1.
Proof.
  intros Hl. destruct (bin_index_spec l RTCM_START) as [[E _]|(pre & x & post & -> & _ & Hx & _)].
  - exact E.
  - apply Forall_app in Hl as [_ Hl]. inversion Hl; subst. contradiction.
Qed.

Lemma len_firstn {A} (l : list A) (n : Z) :
  0 <= n <= len l -> len (firstn (Z.to_nat n) l) = n.
Proof.
  intros Hn. unfold len in *. rewrite length_firstn. lia.
Qed.

Lemma length_word_prefix (data : bytes) (k : Z) :
  3 <= k <= len data ->
  length_word (firstn (Z.to_nat k) data) = length_word data.
Proof.
  intros Hk.
  assert (Hi : forall i, 0 <= i < 3 ->
                 index (firstn (Z.to_nat k) data) i = index data i).
  { intros i Hi. rewrite <- (firstn_skipn (Z.to_nat k) data) at 2.
    now rewrite index_app_l by (rewrite len_firstn; lia). }
  unfold length_word. rewrite (Hi 1) by lia.
  destruct (index data 1); simpl; [|reflexivity].
  now rewrite (Hi 2) by lia.
Qed.

(** What a call of [get_msg] can produce: a plaintext segment, a checked
    frame, or nothing. *)
Lemma get_msg_cases (acc d data' : bytes) :
  get_msg acc = Ok (d, data') ->
  (exists x post,
     acc = d ++ x :: post /\ no_preamble d /\ byte_val x = RTCM_START /\
     3 < len d /\ crlf_before acc (len d) = true /\ data' = x :: post)
  \/ (bin_index acc RTCM_START = 0 /\
      exists n, length_word acc = Ok n /\ 0 <= n <= 1024 /\ n + 6 <= len acc /\
                d = firstn (Z.to_nat (n + 6)) acc /\ crc24 d = Ok 0 /\
                data' = skipn (Z.to_nat (n + 6)) acc)
  \/ d = [].
Proof.
  rewrite get_msg_unfold. cbv zeta.
  destruct (bin_index_spec acc RTCM_START)
    as [[E Hno]|(pre & x & post & Hacc & E & Hx & Hpre)]; rewrite E.
  - simpl. intros [= <- <-]. right; right; reflexivity.
  - destruct (Z.ltb_spec 3 (len pre)) as [H3|H3]; simpl.
    + destruct (crlf_before acc (len pre)) eqn:Ecr.
      * intros [= <- <-]. left. exists x, post. subst acc.
        rewrite !slice_app_l, slice_from_app_r. repeat split; auto.
      * destruct (Z.eqb_spec (len pre) 0); [lia|]. simpl.
        destruct (Z.ltb_spec 0 (len pre)); intros [= <- <-]; right; right; reflexivity.
    + destruct (Z.eqb_spec (len pre) 0) as [E0|E0]; simpl.
      * destruct (Z.ltb_spec 2 (len acc)) as [H2|H2].
        -- destruct (length_word_ok acc H2) as (b1 & b2 & _ & _ & Ew & Hr).
           rewrite Ew.
           destruct (Z.ltb_spec 1024 (byte_val b1 * 256 + byte_val b2));
             [intros [= <- <-]; right; right; reflexivity|].
           destruct (Z.leb_spec (byte_val b1 * 256 + byte_val b2 + 6) (len acc));
             [|intros [= <- <-]; right; right; reflexivity].
           destruct (Z.eqb_spec (crc24_pure (slice acc 0 (byte_val b1 * 256 + byte_val b2 + 6))) 0)
             as [Ec|Ec]; [|intros [= <- <-]; right; right; reflexivity].
           intros [= <- <-]. right; left. split; [congruence|].
           exists (byte_val b1 * 256 + byte_val b2).
           rewrite slice_prefix by lia.
           rewrite len_firstn by lia.
           rewrite slice_from_suffix by lia.
           repeat split; auto; try lia.
           rewrite crc24_eq. f_equal. rewrite <- Ec.
           now rewrite slice_prefix by lia.
        -- destruct (Z.ltb_spec 0 (len pre)); intros [= <- <-]; right; right; reflexivity.
      * destruct (Z.ltb_spec 0 (len pre)); intros [= <- <-]; right; right; reflexivity.
Qed.

(** A candidate frame whose CRC is not 0 is not emitted, and the whole
    accumulator is cleared. *)
Lemma crc_failure_scrubs (acc cand : bytes) :
  candidate acc = Some cand -> crc24 cand <> Ok 0 -> get_msg acc = Ok ([], []).
Proof.
  unfold candidate. intros Hc Hcrc.
  destruct (Z.eqb_spec (bin_index acc RTCM_START) 0) as [E|]; [|discriminate].
  destruct (length_word acc) as [n|] eqn:Ew; [|discriminate].
  destruct (Z.leb_spec n 1024) as [Hn|]; [|discriminate]. simpl in Hc.
  rewrite Z.geb_leb in Hc.
  destruct (Z.leb_spec (n + 6) (len acc)) as [Hl|]; [|discriminate].
  injection Hc as <-.
  assert (H2 : 2 < len acc).
  { destruct (Z.ltb_spec 2 (len acc)) as [|Hs]; [assumption|].
    unfold length_word in Ew. rewrite (index_nonneg acc 2) in Ew by lia.
    assert (Hn2 : nth_error acc (Z.to_nat 2) = None)
      by (apply nth_error_None; unfold len in Hs; lia).
    rewrite Hn2 in Ew. destruct (index acc 1); discriminate. }
  rewrite get_msg_unfold. cbv zeta. rewrite E, Ew. simpl.
  destruct (Z.ltb_spec 2 (len acc)); [|lia].
  destruct (Z.ltb_spec 1024 n); [lia|].
  destruct (Z.leb_spec (n + 6) (len acc)); [|lia].
  rewrite crc24_eq in Hcrc.
  destruct (Z.eqb_spec (crc24_pure (slice acc 0 (n + 6))) 0) as [Ec|]; [|reflexivity].
  rewrite Ec in Hcrc. contradiction.
Qed.

(** C10. For every accumulator content and every polled block ([None],
    empty or not), [get_msg] and [receive_rtcm] raise no exception: they
    return a byte string together with the new accumulator. *)
Theorem reassembler_total (data : bytes) (part : option bytes) :
  (exists d data', get_msg data = Ok (d, data')) /\
  (exists d data', receive_rtcm data part = Ok (d, data')).
Proof.
  assert (Hget : forall acc, exists d data', get_msg acc = Ok (d, data')).
  { intros acc. rewrite get_msg_unfold. cbv zeta.
    destruct ((3 <? bin_index acc RTCM_START) && crlf_before acc (bin_index acc RTCM_START));
      [eauto|].
    destruct (Z.eqb_spec (bin_index acc RTCM_START) 0) as [E0|E0]; simpl.
    - destruct (Z.ltb_spec 2 (len acc)) as [H2|H2].
      + destruct (length_word_ok acc H2) as (b1 & b2 & _ & _ & Ew & _). rewrite Ew.
        repeat match goal with |- context [if ?c then _ else _] => destruct c end; eauto.
      + destruct (0 <? bin_index acc RTCM_START); eauto.
    - destruct (0 <? bin_index acc RTCM_START); eauto. }
  split; [apply Hget|].
  unfold receive_rtcm. apply Hget.
Qed.

(** Below 1024 the length word is the 10-bit length. *)
Lemma ten_bit_of_word (d : bytes) (n : Z) :
  length_word d = Ok n -> n < 1024 -> ten_bit_length d = Ok n.
Proof.
  unfold length_word, ten_bit_length. intros Ew Hn.
  destruct (index d 1) as [b1|]; cbn [bind] in *; [|discriminate].
  destruct (index d 2) as [b2|]; cbn [bind] in *; [|discriminate].
  injection Ew as <-. f_equal.
  pose proof (byte_val_range b1) as H1. pose proof (byte_val_range b2) as H2.
  rewrite !Z.shiftl_mul_pow2 in * by lia. change (2 ^ 8) with 256 in *.
  change 3 with (Z.ones 2). rewrite Z.land_ones by lia. change (2 ^ 2) with 4.
  Z.div_mod_to_equations. lia.
Qed.

(** C1, as stated: an emitted message that begins with the preamble would
    be the 10-bit declared length + 6 bytes long. The frame of 1030 bytes
    with the header [d3 04 00] is emitted whole, and its 10-bit length
    is 0. *)
Lemma emitted_length_ten_bit_refuted :
  ~ (forall (data : bytes) (part : option bytes) (d data' : bytes),
       receive_rtcm data part = Ok (d, data') ->
       starts_with_preamble d ->
       exists n, ten_bit_length d = Ok n /\ len d = n + 6 /\ crc24 d = Ok 0).
Proof.
  intros Hclaim.
  destruct (Hclaim [] (Some Header.frame_word_1024) Header.frame_word_1024 [])
    as (n & En & Hlen & _).
  - vm_compute. reflexivity.
  - eexists _, _. split; reflexivity.
  - vm_compute in En. injection En as <-. vm_compute in Hlen. discriminate.
Qed.

(** C1, amended. Whatever [receive_rtcm] (that is, [get_msg] on the
    accumulator extended by the polled block) emits, if it begins with the
    preamble 0xD3 it is exactly [n + 6] bytes long, where [n <= 1024] is
    the 16-bit word of header bytes 1-2 as [get_msg] reads it, which is the
    10-bit declared length whenever [n < 1024]; its CRC24 is 0 over the
    whole frame, and its last three bytes are the CRC24 of the bytes before
    them. When the candidate frame fails the CRC check, nothing is emitted
    and the accumulator is left empty. *)
Theorem emitted_frame_checked (data : bytes) (part : option bytes) (d data' : bytes) :
  receive_rtcm data part = Ok (d, data') ->
  (starts_with_preamble d ->
   exists n, length_word d = Ok n /\ 0 <= n <= 1024 /\ len d = n + 6 /\
             (n < 1024 -> ten_bit_length d = Ok n) /\
             crc24 d = Ok 0 /\
             crc24 (slice d 0 (n + 3)) = Ok (be24 (slice_from d (n + 3)))) /\
  (forall cand, candidate (accumulated data part) = Some cand ->
                crc24 cand <> Ok 0 -> d = [] /\ data' = []).
Proof.
  change (receive_rtcm data part) with (get_msg (accumulated data part)).
  set (acc := accumulated data part). intros Hget. split.
  - intros Hd. apply bin_index_zero in Hd.
    destruct (get_msg_cases _ _ _ Hget)
      as [(x & post & _ & Hno & _)|[(_ & n & Ew & Hn & Hl & Ed & Ecrc & _)| ->]].
    + rewrite (no_preamble_bin_index d Hno) in Hd. discriminate.
    + exists n.
      assert (Hlen : len d = n + 6) by (subst d; apply len_firstn; lia).
      assert (Hw : length_word d = Ok n)
        by (subst d; rewrite length_word_prefix by lia; exact Ew).
      split; [exact Hw|]. split; [exact Hn|]. split; [exact Hlen|].
      split; [now apply ten_bit_of_word|]. split; [exact Ecrc|].
      rewrite slice_prefix, slice_from_suffix by lia.
      apply crc24_residual.
      * rewrite length_skipn. unfold len in Hlen. lia.
      * now rewrite firstn_skipn.
    + discriminate.
  - intros cand Hc Hcrc.
    rewrite (crc_failure_scrubs _ _ Hc Hcrc) in Hget. now injection Hget as <- <-.
Qed.

Lemma emitted_frame_checked_witness :
  (receive_rtcm [] (Some frame1005) = Ok (frame1005, []) /\
   ((starts_with_preamble frame1005 ->
     exists n, length_word frame1005 = Ok n /\ 0 <= n <= 1024 /\
               len frame1005 = n + 6 /\
               (n < 1024 -> ten_bit_length frame1005 = Ok n) /\
               crc24 frame1005 = Ok 0 /\
               crc24 (slice frame1005 0 (n + 3))
               = Ok (be24 (slice_from frame1005 (n + 3)))) /\
    (forall cand, candidate (accumulated [] (Some frame1005)) = Some cand ->
                  crc24 cand <> Ok 0 -> frame1005 = [] /\ @nil byte = []))) /\
  (receive_rtcm [] (Some Header.frame1005_damaged) = Ok ([], []) /\
   candidate (accumulated [] (Some Header.frame1005_damaged))
   = Some Header.frame1005_damaged /\
   crc24 Header.frame1005_damaged <> Ok 0 /\
   ((starts_with_preamble [] ->
     exists n, length_word [] = Ok n /\ 0 <= n <= 1024 /\
               len (@nil byte) = n + 6 /\
               (n < 1024 -> ten_bit_length [] = Ok n) /\
               crc24 [] = Ok 0 /\
               crc24 (slice [] 0 (n + 3)) = Ok (be24 (slice_from [] (n + 3)))) /\
    (forall cand,
       candidate (accumulated [] (Some Header.frame1005_damaged)) = Some cand ->
       crc24 cand <> Ok 0 -> @nil byte = [] /\ @nil byte = []))).
Proof.
  split.
  - split; [vm_compute; reflexivity|].
    apply (emitted_frame_checked [] (Some frame1005) frame1005 []).
    vm_compute. reflexivity.
  - split; [vm_compute; reflexivity|].
    split; [vm_compute; reflexivity|].
    split; [vm_compute; discriminate|].
    apply (emitted_frame_checked [] (Some Header.frame1005_damaged) [] []).
    vm_compute. reflexivity.
Defined.

(** C3, as stated: on an accumulator that starts with the preamble and
    holds at least 3 bytes the length would be the 10-bit field. It is not:
    with a reserved bit set ([d3 08 00], 10-bit length 0) the accumulator is
    scrubbed, where a frame of length 0 would merely be incomplete. *)
Lemma ten_bit_length_refuted :
  ~ (forall data : bytes,
       starts_with_preamble data -> 2 < len data ->
       get_msg data = get_msg_10bit data /\
       (forall n, ten_bit_length data = Ok n -> 1024 < n -> get_msg data = Ok ([], []))).
Proof.
  intros Hclaim.
  destruct (Hclaim [xd3; x08; x00]%byte) as [Heq _];
    [eexists _, _; split; reflexivity|reflexivity|].
  vm_compute in Heq. discriminate.
Qed.

(** C3, amended. On an accumulator that starts with the preamble and holds
    at least 3 bytes, [get_msg] reads the length as the 16-bit big-endian
    word of bytes 1-2, which is the 10-bit payload length when the six
    reserved bits are zero; when that word exceeds 1024 the whole
    accumulator is discarded and nothing is emitted. *)
Theorem length_word_guard (data : bytes) :
  starts_with_preamble data -> 2 < len data ->
  exists b1 b2 n,
    index data 1 = Ok b1 /\ index data 2 = Ok b2 /\
    n = byte_val b1 * 256 + byte_val b2 /\
    length_word data = Ok n /\
    (reserved_bits data = Ok 0 -> ten_bit_length data = Ok n) /\
    (1024 < n -> get_msg data = Ok ([], [])).
Proof.
  intros E0 H2. apply bin_index_zero in E0.
  destruct (length_word_ok data H2) as (b1 & b2 & E1 & E2 & Ew & Hr).
  exists b1, b2, (byte_val b1 * 256 + byte_val b2).
  repeat split; auto.
  - unfold reserved_bits, ten_bit_length. rewrite E1, E2. simpl.
    intros [= Hres]. f_equal.
    pose proof (byte_val_range b1) as Hb1.
    rewrite Z.shiftr_div_pow2 in Hres by lia. change (2 ^ 2) with 4 in Hres.
    rewrite Z.shiftl_mul_pow2 by lia. change (2 ^ 8) with 256.
    change 3 with (Z.ones 2). rewrite Z.land_ones by lia. change (2 ^ 2) with 4.
    Z.div_mod_to_equations. lia.
  - intros Hn. rewrite get_msg_unfold. cbv zeta. rewrite E0, Ew. simpl.
    destruct (Z.ltb_spec 2 (len data)); [|lia].
    destruct (Z.ltb_spec 1024 (byte_val b1 * 256 + byte_val b2)); [reflexivity|lia].
Qed.

Lemma length_word_guard_witness :
  exists b1 b2 n,
    index [xd3; x08; x00]%byte 1 = Ok b1 /\ index [xd3; x08; x00]%byte 2 = Ok b2 /\
    n = byte_val b1 * 256 + byte_val b2 /\
    length_word [xd3; x08; x00]%byte = Ok n /\
    (reserved_bits [xd3; x08; x00]%byte = Ok 0 -> ten_bit_length [xd3; x08; x00]%byte = Ok n) /\
    (1024 < n -> get_msg [xd3; x08; x00]%byte = Ok ([], [])).
Proof.
  apply (length_word_guard [xd3; x08; x00]%byte);
    [eexists _, _; split; reflexivity|reflexivity].
Defined.

(** C4, as stated: whenever the first preamble is at a positive offset and
    CR LF precedes it, the bytes before it would be emitted. They are not
    when the offset is 2 or 3: in [0d 0a d3] the CR LF is dropped. *)
Lemma text_segment_refuted :
  ~ (forall (data : bytes) (idx : Z),
       bin_index data RTCM_START = idx -> 0 < idx ->
       get_msg data =
       if crlf_before data idx
       then Ok (firstn (Z.to_nat idx) data, skipn (Z.to_nat idx) data)
       else Ok ([], skipn (Z.to_nat idx) data)).
Proof.
  intros Hclaim.
  specialize (Hclaim [x0d; x0a; xd3]%byte 2 eq_refl eq_refl).
  vm_compute in Hclaim. discriminate.
Qed.

(** C4, amended. When the first preamble is at a positive offset: if the
    offset is greater than 3 and the two bytes before the preamble are
    CR LF, [get_msg] emits the bytes before the preamble and keeps the
    accumulator from the preamble on; otherwise it emits nothing, drops the
    bytes before the preamble and keeps the accumulator from the preamble
    on. *)
Theorem text_before_preamble (data : bytes) (idx : Z) :
  bin_index data RTCM_START = idx -> 0 < idx ->
  get_msg data =
  if (3 <? idx) && crlf_before data idx
  then Ok (firstn (Z.to_nat idx) data, skipn (Z.to_nat idx) data)
  else Ok ([], skipn (Z.to_nat idx) data).
Proof.
  intros E Hpos. rewrite get_msg_unfold. cbv zeta. rewrite E.
  pose proof (bin_index_le_len data RTCM_START) as Hle. rewrite E in Hle.
  rewrite slice_prefix, slice_from_suffix by lia.
  destruct ((3 <? idx) && crlf_before data idx); [reflexivity|].
  destruct (Z.eqb_spec idx 0); [lia|]. simpl.
  destruct (Z.ltb_spec 0 idx); [reflexivity|lia].
Qed.

Lemma text_before_preamble_witness :
  get_msg [x4f; x4b; x0d; x0a; xd3; x00]%byte =
  if (3 <? 4) && crlf_before [x4f; x4b; x0d; x0a; xd3; x00]%byte 4
  then Ok (firstn (Z.to_nat 4) [x4f; x4b; x0d; x0a; xd3; x00]%byte,
           skipn (Z.to_nat 4) [x4f; x4b; x0d; x0a; xd3; x00]%byte)
  else Ok ([], skipn (Z.to_nat 4) [x4f; x4b; x0d; x0a; xd3; x00]%byte).
Proof.
  apply (text_before_preamble [x4f; x4b; x0d; x0a; xd3; x00]%byte 4); [reflexivity|lia].
Defined.

Lemma accumulated_nil (p : bytes) : accumulated [] (Some p) = p.
Proof. destruct p; reflexivity. Qed.

Lemma accumulated_app (data p : bytes) :
  p <> [] -> accumulated data (Some p) = data ++ p.
Proof. destruct p; [contradiction|reflexivity]. Qed.

Lemma get_msg_valid_frame (frame : bytes) :
  valid_frame frame -> get_msg frame = Ok (frame, []).
Proof.
  intros (E0 & n & Ew & Hn & Hlen & Hcrc). apply bin_index_zero in E0.
  assert (H2 : 2 < len frame).
  { destruct (Z.ltb_spec 2 (len frame)) as [|Hs]; [assumption|].
    unfold length_word in Ew. rewrite (index_nonneg frame 2) in Ew by lia.
    assert (Hn2 : nth_error frame (Z.to_nat 2) = None)
      by (apply nth_error_None; unfold len in Hs; lia).
    rewrite Hn2 in Ew. destruct (index frame 1); discriminate. }
  rewrite get_msg_unfold. cbv zeta. rewrite E0, Ew. simpl.
  destruct (Z.ltb_spec 2 (len frame)); [|lia].
  destruct (Z.ltb_spec 1024 n); [lia|].
  destruct (Z.leb_spec (n + 6) (len frame)); [|lia].
  rewrite <- Hlen, slice_all, slice_from_all.
  rewrite crc24_eq in Hcrc. injection Hcrc as ->. reflexivity.
Qed.

Lemma get_msg_partial_frame (frame : bytes) (k : nat) :
  valid_frame frame -> (k < List.length frame)%nat ->
  get_msg (firstn k frame) = Ok ([], firstn k frame).
Proof.
  intros (E0 & n & Ew & Hn & Hlen & Hcrc) Hk.
  destruct k as [|k]; [reflexivity|].
  destruct E0 as (x & rest & -> & Hx).
  assert (Ek : bin_index (firstn (S k) (x :: rest)) RTCM_START = 0)
    by (apply bin_index_zero; simpl; eauto).
  assert (Hlk : len (firstn (S k) (x :: rest)) = Z.of_nat (S k))
    by (unfold len; rewrite length_firstn; lia).
  rewrite get_msg_unfold. cbv zeta. rewrite Ek.
  change (3 <? 0) with false. change (0 =? 0) with true. change (0 <? 0) with false.
  cbn [andb].
  destruct (Z.ltb_spec 2 (len (firstn (S k) (x :: rest)))) as [H2|H2]; [|reflexivity].
  replace (S k) with (Z.to_nat (Z.of_nat (S k))) by lia.
  rewrite length_word_prefix by (unfold len in *; lia).
  rewrite Ew. rewrite Nat2Z.id.
  destruct (Z.ltb_spec 1024 n); [lia|].
  destruct (Z.leb_spec (n + 6) (len (firstn (S k) (x :: rest)))); [|reflexivity].
  unfold len in *. lia.
Qed.

(** C5, as stated: every frame with first byte 0xD3, a declared (10-bit)
    length of at most 1024 and CRC residual 0 would be emitted whole,
    delivered in one poll or two. The six-byte frame [d3 08 00 7f 09 fd]
    has 10-bit length 0 and CRC 0, and is scrubbed: its length word is
    2048. *)
Lemma split_delivery_ten_bit_refuted :
  ~ (forall (frame : bytes) (k : nat),
       Header.valid_frame_10bit frame -> (k < List.length frame)%nat ->
       receive_rtcm [] (Some (firstn k frame)) = Ok ([], firstn k frame) /\
       receive_rtcm (firstn k frame) (Some (skipn k frame)) = Ok (frame, []) /\
       receive_rtcm [] (Some frame) = Ok (frame, [])).
Proof.
  intros Hclaim.
  destruct (Hclaim Header.frame_reserved_bit 5%nat) as (_ & H2 & _).
  - split; [eexists _, _; split; reflexivity|].
    exists 0. repeat split; vm_compute; congruence.
  - simpl. lia.
  - vm_compute in H2. discriminate.
Qed.

(** C5, amended. A valid frame, with validity by the length word that
    [get_msg] reads (first byte 0xD3, the 16-bit word of bytes 1-2 at most
    1024 and 6 less than the length of the frame, CRC residual 0),
    delivered in two successive polls, cut before any of its bytes (the
    first [k] bytes, then the rest, [k] less than the length): the first
    call emits nothing and keeps the bytes, the second emits exactly the
    frame and leaves the accumulator empty, which is what the delivery of
    the whole frame in one poll emits. *)
Theorem split_delivery (frame : bytes) (k : nat) :
  valid_frame frame -> (k < List.length frame)%nat ->
  receive_rtcm [] (Some (firstn k frame)) = Ok ([], firstn k frame) /\
  receive_rtcm (firstn k frame) (Some (skipn k frame)) = Ok (frame, []) /\
  receive_rtcm [] (Some frame) = Ok (frame, []).
Proof.
  intros Hv Hk.
  assert (Hrecv : forall data part, receive_rtcm data part = get_msg (accumulated data part))
    by reflexivity.
  rewrite !Hrecv, !accumulated_nil.
  rewrite accumulated_app, firstn_skipn.
  - repeat split; auto using get_msg_partial_frame, get_msg_valid_frame.
  - intros Hnil. apply (f_equal (@List.length byte)) in Hnil.
    rewrite length_skipn in Hnil. simpl in Hnil. lia.
Qed.

Lemma split_delivery_witness :
  receive_rtcm [] (Some (firstn 5 frame1005)) = Ok ([], firstn 5 frame1005) /\
  receive_rtcm (firstn 5 frame1005) (Some (skipn 5 frame1005)) = Ok (frame1005, []) /\
  receive_rtcm [] (Some frame1005) = Ok (frame1005, []).
Proof.
  apply (split_delivery frame1005 5).
  - split; [eexists _, _; split; reflexivity|].
    exists 19. repeat split; vm_compute; congruence.
  - simpl. lia.
Defined.

End ReassemblerFacts.

(** ** The source table *)

Module SourceTableFacts.
Import Py Ntrip PyFacts.
Local Open Scope string_scope.
Local Open Scope Z_scope.

Section WithParsers.
Context `{Parsers}.

(** A malformed line yields the sentinel tuple. *)
Lemma malformed_name_pos (line : string) :
  malformed line = true ->
  get_sourcetable_name_pos line = ("", "", PInt 0, PInt 0).
Proof.
  unfold malformed, get_sourcetable_name_pos. cbv zeta.
  set (data := split ";" line). rewrite Z.gtb_ltb.
  destruct (Z.ltb_spec (len data) 11) as [Hs|Hl]; cbn [orb].
  - intros _. destruct (Z.ltb_spec 10 (len data)); [lia|reflexivity].
  - destruct (Z.ltb_spec 10 (len data)); [|lia].
    destruct (index_in_range data 8 ltac:(lia)) as (c & -> & _).
    destruct (index_in_range data 1 ltac:(lia)) as (n & -> & _).
    destruct (index_in_range data 9 ltac:(lia)) as (la & -> & Ela).
    destruct (index_in_range data 10 ltac:(lia)) as (lo & -> & Elo).
    change (Z.to_nat 9) with 9%nat in Ela. change (Z.to_nat 10) with 10%nat in Elo.
    rewrite Ela, Elo.
    simpl. destruct (float_of_str la); simpl; [|reflexivity].
    destruct (float_of_str lo); simpl; [discriminate|reflexivity].
Qed.

Lemma add_source_malformed (sources : gmap string entry) (line : string) :
  malformed line = true ->
  add_source sources line = <["" := sentinel_entry]> sources.
Proof.
  intros Hm. unfold add_source. now rewrite malformed_name_pos.
Qed.

(** A line that is read yields its fields 8, 1, 9 and 10. *)
Lemma wellformed_name_pos (line : string) :
  malformed line = false ->
  exists country name la lo lat lon,
    nth_error (split ";" line) 8 = Some country /\
    nth_error (split ";" line) 1 = Some name /\
    nth_error (split ";" line) 9 = Some la /\ float_of_str la = Some lat /\
    nth_error (split ";" line) 10 = Some lo /\ float_of_str lo = Some lon /\
    get_sourcetable_name_pos line = (country, name, PFloat lat, PFloat lon).
Proof.
  unfold malformed, get_sourcetable_name_pos. cbv zeta.
  set (data := split ";" line). rewrite Z.gtb_ltb.
  destruct (Z.ltb_spec (len data) 11) as [Hs|Hl]; cbn [orb]; [discriminate|].
  destruct (Z.ltb_spec 10 (len data)); [|lia].
  destruct (index_in_range data 8 ltac:(lia)) as (c & -> & Ec).
  destruct (index_in_range data 1 ltac:(lia)) as (n & -> & En).
  destruct (index_in_range data 9 ltac:(lia)) as (la & -> & Ela).
  destruct (index_in_range data 10 ltac:(lia)) as (lo & -> & Elo).
  change (Z.to_nat 9) with 9%nat in Ela. change (Z.to_nat 10) with 10%nat in Elo.
  change (Z.to_nat 8) with 8%nat in Ec. change (Z.to_nat 1) with 1%nat in En.
  rewrite Ela, Elo. simpl.
  destruct (float_of_str la) as [lat|] eqn:Flat; [|discriminate].
  destruct (float_of_str lo) as [lon|] eqn:Flon; [|discriminate].
  intros _. exists c, n, la, lo, lat, lon. simpl. repeat split; auto.
Qed.

(** C6, amended. A selected line with fewer than 11 fields or with an
    unparsable latitude or longitude does not stop the parsing: it is
    counted, it is stored in the mapping under the empty name as the entry
    [("", 0, 0)], and the lines after it are parsed on top of that. *)
Theorem malformed_line_recorded (country : pyval) (table : string)
    (pre : list string) (line : string) (post : list string) :
  select_lines (country_pattern country) (split "010" table) = (pre ++ line :: post)%list ->
  malformed line = true ->
  get_sourcetable country table =
  ((pre ++ line :: post)%list,
   fold_left add_source post (<["" := sentinel_entry]> (build_sources pre)),
   len pre + 1 + len post).
Proof.
  intros Hsel Hm. unfold get_sourcetable. cbv zeta. rewrite Hsel.
  unfold build_sources. rewrite fold_left_app. simpl fold_left.
  rewrite add_source_malformed by assumption.
  rewrite len_app, len_cons. f_equal. lia.
Qed.





End WithParsers.

Lemma malformed_line_recorded_witness :
  select_lines (country_pattern PNone)
    (split "010" "STR;A;x;x;x;x;x;x;GBR;north;-1.0;0") =
    ([] ++ "STR;A;x;x;x;x;x;x;GBR;north;-1.0;0" :: [])%list /\
  get_sourcetable PNone "STR;A;x;x;x;x;x;x;GBR;north;-1.0;0" =
  (([] ++ "STR;A;x;x;x;x;x;x;GBR;north;-1.0;0" :: [])%list,
   fold_left add_source [] (<["" := sentinel_entry]> (build_sources [])),
   len (@nil string) + 1 + len (@nil string)).
Proof.
  split; [reflexivity|].
  apply (malformed_line_recorded PNone "STR;A;x;x;x;x;x;x;GBR;north;-1.0;0" []
           "STR;A;x;x;x;x;x;x;GBR;north;-1.0;0" []); reflexivity.
Defined.

(** C6, as stated: the mapping would be the one built from the well-formed
    lines alone. A table whose only line is [STR;a;b] gives a mapping with
    one entry, under the empty name. *)
Lemma malformed_line_skipped_refuted :
  ~ (forall (country : pyval) (table : string),
       let '(sourcelines, sources, _) := get_sourcetable country table in
       sources = build_sources (List.filter (fun l => negb (malformed l)) sourcelines)).
Proof.
  intros Hclaim. specialize (Hclaim PNone "STR;a;b").
  vm_compute in Hclaim. discriminate.
Qed.



End SourceTableFacts.

(** ** The NMEA decoder *)

Module GpsFacts.
Import Py Gps PyFacts.
Local Open Scope string_scope.
Local Open Scope Z_scope.

Section WithParsers.
Context `{Parsers}.

(** The conversions with a default absorb every exception. *)
Lemma str2int_default (v : pyval) (default : Z) :
  str2int v default =
  match v with
  | PNone => default
  | PStr s => match int_of_str s with Some z => z | None => default end
  end.
Proof.
  unfold str2int, py_int. destruct v as [|s]; [reflexivity|].
  destruct (int_of_str s); reflexivity.
Qed.

Lemma str2float_default (v : pyval) (default : num) :
  str2float v default =
  match v with
  | PNone => default
  | PStr s => match float_of_str s with Some f => PFloat f | None => default end
  end.
Proof.
  unfold str2float, py_float. destruct v as [|s]; [reflexivity|].
  destruct (float_of_str s); reflexivity.
Qed.

(** [degmin_deg] absorbs none: a missing field or an unparsable part
    raises. *)
Lemma degmin_deg_missing (nsew : pyval) : degmin_deg PNone nsew = Raise TypeError.
Proof. reflexivity. Qed.

Lemma degmin_deg_missing_hemisphere (dm : string) :
  4 <= str_len dm -> degmin_deg (PStr dm) PNone = Raise TypeError.
Proof.
  intros Hl. unfold degmin_deg. cbv zeta. cbn [py_len bind].
  rewrite Z.geb_leb. destruct (Z.leb_spec 4 (str_len dm)); [reflexivity|lia].
Qed.

Lemma degmin_deg_short (dm : string) (nsew : pyval) :
  str_len dm < 4 -> degmin_deg (PStr dm) nsew = Ok 0%float.
Proof.
  intros Hl. unfold degmin_deg. cbv zeta. cbn [py_len bind].
  rewrite Z.geb_leb. destruct (Z.leb_spec 4 (str_len dm)); [lia|reflexivity].
Qed.

Lemma degmin_deg_no_substring (dm nsew : string) :
  contains nsew "NSEW" = false -> degmin_deg (PStr dm) (PStr nsew) = Ok 0%float.
Proof.
  intros Hc. unfold degmin_deg. cbv zeta. cbn [py_len bind].
  destruct (str_len dm >=? 4); [|reflexivity].
  cbn [py_in]. rewrite Hc. reflexivity.
Qed.

(** With a hemisphere letter and parts that [float()] accepts, the result
    is degrees + minutes / 60, negated for S and W. *)
Lemma degmin_deg_hemisphere (dm h : string) (d m : float) :
  4 <= str_len dm -> is_hemisphere h ->
  let n := if String.eqb h "N" || String.eqb h "S" then 2 else 3 in
  float_of_str (str_slice dm 0 n) = Some d ->
  float_of_str (str_slice_from dm n) = Some m ->
  degmin_deg (PStr dm) (PStr h) =
  Ok (if String.eqb h "S" || String.eqb h "W"
      then (- (d + m / 60))%float else (d + m / 60)%float).
Proof.
  intros Hl Hh n Hd Hm. unfold degmin_deg. cbv zeta. cbn [py_len bind].
  rewrite Z.geb_leb. destruct (Z.leb_spec 4 (str_len dm)); [|lia].
  destruct Hh as [-> | [-> | [-> | ->]]]; subst n; cbn in Hd, Hm |- *;
    unfold py_float; rewrite Hd; cbn; rewrite Hm; reflexivity.
Qed.

(** [getval] never raises on the three field tables. *)
Lemma getval_total (data : list string) (dict : gmap string Z) (s : string) (i : Z) :
  dict !! s = Some i -> 0 <= i ->
  getval data dict s =
  Ok (match nth_error data (Z.to_nat i) with Some x => PStr x | None => PNone end).
Proof.
  intros Hd Hi. unfold getval, dict_get. rewrite Hd. cbn [bind].
  destruct (Z.ltb_spec i (len data)) as [Hlt|Hge].
  - destruct (index_in_range data i ltac:(lia)) as (x & -> & ->). reflexivity.
  - assert (Hn : nth_error data (Z.to_nat i) = None)
      by (apply nth_error_None; unfold len in Hge; lia).
    now rewrite Hn.
Qed.

(** A GSA sentence never raises: each DOP is the parsed field or 99.99. *)
Lemma decode_gsa (line : string) (self : GpsDecode) (id : string) (rest : list string) :
  split "," (str_slice line 0 (-3)) = id :: rest ->
  (2 <= List.length rest)%nat ->
  id = "$GPGSA" \/ id = "$GNGSA" ->
  decode line self =
  (Ok (RBool false),
   set_vdop (str2float (match nth_error (id :: rest) 17 with Some x => PStr x | None => PNone end)
                       (PFloat 99.99))
     (set_hdop (str2float (match nth_error (id :: rest) 16 with Some x => PStr x | None => PNone end)
                          (PFloat 99.99))
        (set_pdop (str2float (match nth_error (id :: rest) 15 with Some x => PStr x | None => PNone end)
                             (PFloat 99.99)) self))).
Proof.
  intros Hs Hl Hid. unfold decode. cbv zeta. rewrite Hs.
  destruct (Z.ltb_spec (len (id :: rest)) 3) as [Hlt|_];
    [unfold len in Hlt; simpl List.length in Hlt; lia|].
  rewrite (getval_total _ GSA "PDOP" 15), (getval_total _ GSA "HDOP" 16),
    (getval_total _ GSA "VDOP" 17) by (reflexivity || lia).
  destruct Hid as [-> | ->]; reflexivity.
Qed.

Lemma mbind_lift_ok {A B} (a : A) (k : A -> M B) (s : GpsDecode) :
  mbind (lift (Ok a)) k s = k a s.
Proof. reflexivity. Qed.

Lemma mbind_lift_raise {A B} (e : exn) (k : A -> M B) (s : GpsDecode) :
  mbind (lift (Raise e)) k s = (Raise e, s).
Proof. reflexivity. Qed.

Lemma mbind_assign {B} (f : GpsDecode -> GpsDecode) (k : unit -> M B) (s : GpsDecode) :
  mbind (assign f) k s = k tt (f s).
Proof. reflexivity. Qed.

(** What [degmin_deg] raises is a [TypeError] or a [ValueError]. *)
Lemma degmin_deg_outcome (dm nsew : pyval) :
  degmin_deg dm nsew = Raise TypeError \/ degmin_deg dm nsew = Raise ValueError \/
  exists f, degmin_deg dm nsew = Ok f.
Proof.
  unfold degmin_deg. cbv zeta.
  destruct dm as [|dm]; cbn [py_len bind]; [auto|].
  destruct (str_len dm >=? 4); cbn [bind]; [|eauto].
  destruct nsew as [|ns]; cbn [py_in bind]; [auto|].
  destruct (contains ns "NSEW"); [|eauto].
  cbn [py_getslice py_getslice_from bind py_float].
  destruct (float_of_str (str_slice dm 0 _)); cbn [bind]; [|auto].
  destruct (float_of_str (str_slice_from dm _)); cbn [bind]; eauto.
Qed.

(** A GGA sentence with fewer than 5 fields raises, whatever the parsers
    accept: at the latest when the length of the missing longitude is
    taken. *)
Lemma decode_gga_short (line : string) (self : GpsDecode)
    (id t la : string) (rest : list string) :
  split "," (str_slice line 0 (-3)) = id :: t :: la :: rest ->
  (List.length rest <= 1)%nat ->
  id = "$GPGGA" \/ id = "$GNGGA" ->
  exists e, fst (decode line self) = Raise e.
Proof.
  intros Hs Hl Hid. unfold decode. cbv zeta. rewrite Hs.
  assert (Hlon : nth_error (id :: t :: la :: rest) 4 = None).
  { apply nth_error_None. simpl List.length. lia. }
  destruct (Z.ltb_spec (len (id :: t :: la :: rest)) 3) as [Hlt|_];
    [unfold len in Hlt; simpl List.length in Hlt; lia|].
  rewrite (getval_total _ RMC "time" 1), (getval_total _ GGA "lat" 2),
    (getval_total _ GGA "NS" 3), (getval_total _ GGA "lon" 4),
    (getval_total _ GGA "EW" 5) by (reflexivity || lia).
  change (Z.to_nat 4) with 4%nat. rewrite Hlon.
  change (index (id :: t :: la :: rest) 0) with (@Ok string id).
  rewrite mbind_lift_ok.
  assert (Hgga : (String.eqb id "$GPGSA" || String.eqb id "$GNGSA" = false) /\
                 (String.eqb id "$GPGGA" || String.eqb id "$GNGGA" = true))
    by (destruct Hid as [-> | ->]; split; reflexivity).
  destruct Hgga as [-> ->].
  change (Z.to_nat 1) with 1%nat. change (nth_error (id :: t :: la :: rest) 1) with (Some t).
  change (Z.to_nat 2) with 2%nat. change (nth_error (id :: t :: la :: rest) 2) with (Some la).
  unfold py_getslice, py_getslice_from. cbv beta iota.
  repeat (rewrite ?mbind_lift_ok, ?mbind_assign; cbv beta).
  destruct (degmin_deg_outcome (PStr la)
              (match nth_error (id :: t :: la :: rest) (Z.to_nat 3) with
               | Some x => PStr x | None => PNone end)) as [E | [E | [f E]]]; rewrite E.
  - eexists. reflexivity.
  - eexists. reflexivity.
  - repeat (rewrite ?mbind_lift_ok, ?mbind_assign; cbv beta).
    rewrite degmin_deg_missing. eexists. reflexivity.
Qed.

(** A GGA sentence cut after its third field raises [TypeError]: the
    longitude is missing and [degmin_deg] takes its length. *)
Lemma decode_truncated_gga (self : GpsDecode) :
  fst (decode "$GPGGA,123519,*5B" self) = Raise TypeError.
Proof. reflexivity. Qed.

End WithParsers.

(** C2. [decode] on a GGA sentence with a valid checksum whose fields end
    after the latitude hemisphere: the call raises [TypeError], after the
    time and the latitude were already assigned. *)
Theorem decode_raises_on_short_gga :
  decode "$GPGGA,123519,4807.038,N*27" init =
  (Raise TypeError,
   set_lat (PFloat 48.1173) (set_sec (PFloat 19) (set_min 35 (set_hour 12 init)))).
Proof. vm_compute. reflexivity. Qed.

(** C7. The empty hemisphere code is outside N, S, E, W, and yet the
    conversion of ["4807.038"] with it is 48 + 7.038/60, not 0.0. *)
Theorem degmin_deg_empty_hemisphere :
  degmin_deg (PStr "4807.038") (PStr "") = Ok 48.1173%float /\
  degmin_deg (PStr "4807.038") (PStr "") <> Ok 0%float.
Proof. split; [vm_compute; reflexivity|vm_compute; discriminate]. Qed.

(** C9, as stated: an out-of-range code would give ["unknown"]. Code 7
    gives ["?"]. *)
Lemma qualstr_unknown_refuted :
  ~ (forall self : GpsDecode,
       fst (qualstr self) =
       if (0 <=? quality self) && (quality self <? len qualstrs)
       then Ok (nth (Z.to_nat (quality self)) qualstrs "")
       else Ok "unknown").
Proof.
  intros Hclaim. specialize (Hclaim (set_quality 7 init)).
  vm_compute in Hclaim. discriminate.
Qed.

(** C9, amended. For a quality code [q >= 0], [qualstr] returns the [q]-th
    entry of the table when [q < 7] and the string ["?"] otherwise, and
    leaves the record as it is. *)
Theorem qualstr_lookup (self : GpsDecode) :
  0 <= quality self ->
  qualstr self =
  (if quality self <? len qualstrs
   then Ok (nth (Z.to_nat (quality self)) qualstrs "")
   else Ok "?",
   self).
Proof.
  intros Hq. unfold qualstr.
  destruct (Z.ltb_spec (quality self) (len qualstrs)) as [Hlt|Hge]; [|reflexivity].
  rewrite index_nonneg by assumption.
  rewrite (nth_error_nth' qualstrs "") by (unfold len in Hlt; lia).
  reflexivity.
Qed.

Lemma qualstr_lookup_witness :
  qualstr (set_quality 4 init) =
  (if quality (set_quality 4 init) <? len qualstrs
   then Ok (nth (Z.to_nat (quality (set_quality 4 init))) qualstrs "")
   else Ok "?",
   set_quality 4 init).
Proof. apply (qualstr_lookup (set_quality 4 init)). simpl. lia. Defined.

(** Below the table: a code from -7 to -1 counts from the end, a lower one
    raises. *)
Lemma qualstr_negative :
  fst (qualstr (set_quality (-1) init)) = Ok "Estimate" /\
  fst (qualstr (set_quality (-8) init)) = Raise IndexError.
Proof. split; reflexivity. Qed.

End GpsFacts.

(** ** The CRC as an error detector *)

Module CrcDetection.
Import Py Ntrip PyFacts CrcFacts ReassemblerFacts.
Local Open Scope Z_scope.

(** The low bytes of the table entries are pairwise different. *)
Lemma tab_low_byte_inj (i j : Z) :
  0 <= i < 256 -> 0 <= j < 256 -> tab i mod 256 = tab j mod 256 -> i = j.
Proof.
  intros Hi Hj E.
  assert (Hall : forallb (fun a => forallb (fun b =>
                   negb (tab (Z.of_nat a) mod 256 =? tab (Z.of_nat b) mod 256)
                   || (a =? b)%nat) (seq 0 256)) (seq 0 256) = true)
    by (vm_compute; reflexivity).
  rewrite forallb_forall in Hall.
  specialize (Hall (Z.to_nat i) ltac:(apply in_seq; lia)).
  rewrite forallb_forall in Hall.
  specialize (Hall (Z.to_nat j) ltac:(apply in_seq; lia)).
  rewrite !Z2Nat.id in Hall by lia. rewrite E, Z.eqb_refl in Hall.
  cbn [negb orb] in Hall. apply Nat.eqb_eq in Hall. lia.
Qed.

Lemma step24_index_range (s b : Z) :
  0 <= s < 2 ^ 24 -> 0 <= b < 256 -> 0 <= Z.lxor b (s / 65536) < 256.
Proof.
  intros Hs Hb. apply (lxor_range 8); [lia|simpl; lia|].
  change (2 ^ 24) with 16777216 in Hs. change (2 ^ 8) with 256.
  Z.div_mod_to_equations. lia.
Qed.

(** One step of the register is injective in the byte and in the state. *)
Lemma step24_inj (s s' b b' : Z) :
  0 <= s < 2 ^ 24 -> 0 <= s' < 2 ^ 24 -> 0 <= b < 256 -> 0 <= b' < 256 ->
  step24 s b = step24 s' b' ->
  (s = s' -> b = b') /\ (b = b' -> s = s').
Proof.
  intros Hs Hs' Hb Hb' E.
  assert (El : tab (Z.lxor b (s / 65536)) mod 256 = tab (Z.lxor b' (s' / 65536)) mod 256)
    by (rewrite <- !step24_low, E; reflexivity).
  apply tab_low_byte_inj in El; try now apply step24_index_range.
  split.
  - intros <-.
    apply (f_equal (fun v => Z.lxor v (s / 65536))) in El.
    rewrite !Z.lxor_assoc, !Z.lxor_nilpotent, !Z.lxor_0_r in El. exact El.
  - intros <-.
    assert (Eh : s / 65536 = s' / 65536).
    { apply (f_equal (fun v => Z.lxor b v)) in El.
      rewrite <- !Z.lxor_assoc, !Z.lxor_nilpotent, !Z.lxor_0_l in El. exact El. }
    unfold step24 in E. rewrite Eh in E.
    apply (f_equal (fun v => Z.lxor v (tab (Z.lxor b (s' / 65536))))) in E.
    rewrite !Z.lxor_assoc, !Z.lxor_nilpotent, !Z.lxor_0_r in E.
    change (2 ^ 24) with 16777216 in *.
    Z.div_mod_to_equations. lia.
Qed.

Lemma fold_step24_inj (post : bytes) : forall s s',
  0 <= s < 2 ^ 24 -> 0 <= s' < 2 ^ 24 ->
  fold_left (fun s b => step24 s (byte_val b)) post s
  = fold_left (fun s b => step24 s (byte_val b)) post s' ->
  s = s'.
Proof.
  induction post as [|b post IH]; intros s s' Hs Hs' E; simpl in E; [exact E|].
  apply IH in E; try (apply step24_range; [assumption|apply byte_val_range]).
  now apply (step24_inj s s' (byte_val b) (byte_val b)); try apply byte_val_range.
Qed.

Lemma byte_val_inj (x y : byte) : byte_val x = byte_val y -> x = y.
Proof.
  unfold byte_val. intros E.
  assert (En : Byte.to_N x = Byte.to_N y) by lia.
  pose proof (Byte.of_to_N x) as Hx. pose proof (Byte.of_to_N y) as Hy.
  rewrite En in Hx. congruence.
Qed.

(** A change of one byte changes the CRC. *)
Lemma crc24_byte_change (pre post : bytes) (x y : byte) :
  x <> y -> crc24 (pre ++ x :: post) <> crc24 (pre ++ y :: post).
Proof.
  intros Hne E. rewrite !crc24_eq in E. injection E as E.
  rewrite !crc24_pure_app in E. simpl fold_left in E.
  pose proof (crc24_pure_range pre) as Hs.
  apply fold_step24_inj in E;
    try (apply step24_range; [assumption|apply byte_val_range]).
  apply (step24_inj _ _ (byte_val x) (byte_val y)) in E;
    try assumption; try apply byte_val_range.
  destruct E as [E _]. apply Hne, byte_val_inj, E. reflexivity.
Qed.

(** X2. [crc24] tells apart any two messages that differ in one byte. *)
Theorem crc24_detects_byte_change (pre post : bytes) (x y : byte) :
  x <> y -> crc24 (pre ++ x :: post) <> crc24 (pre ++ y :: post).
Proof. apply crc24_byte_change. Qed.

Lemma crc24_detects_byte_change_witness :
  crc24 ([xd3; x00; x13] ++ x3e :: [xd7]) <> crc24 ([xd3; x00; x13] ++ x3f :: [xd7]).
Proof.
  apply (crc24_detects_byte_change [xd3; x00; x13] [xd7] x3e x3f). discriminate.
Defined.

(** X1. [crc24] never raises, its value fits 24 bits, and three bytes
    appended to a message bring the CRC to 0 exactly when they spell the
    CRC of the message, most significant byte first. *)
Theorem crc24_value_and_trailer (m : bytes) :
  exists v,
    crc24 m = Ok v /\ 0 <= v < 2 ^ 24 /\
    forall t, List.length t = 3%nat -> (crc24 (m ++ t) = Ok 0 <-> be24 t = v).
Proof.
  exists (crc24_pure m). split; [apply crc24_eq|]. split; [apply crc24_pure_range|].
  intros t Ht. rewrite (crc24_residual m t Ht), crc24_eq.
  split; [now intros [= ->]|now intros ->].
Qed.

End CrcDetection.

(** ** Sequences of calls of the reassembler *)

Module StreamFacts.
Import Py Ntrip PyFacts CrcFacts ReassemblerFacts CrcDetection.
Local Open Scope Z_scope.

Lemma valid_frame_length (f : bytes) (n : Z) :
  length_word f = Ok n -> len f = n + 6 -> 0 <= n /\ 2 < len f.
Proof.
  intros Ew Hlen.
  assert (H2 : 2 < len f).
  { destruct (Z.ltb_spec 2 (len f)) as [|Hs]; [assumption|].
    unfold length_word in Ew. rewrite (index_nonneg f 2) in Ew by lia.
    assert (Hn2 : nth_error f (Z.to_nat 2) = None)
      by (apply nth_error_None; unfold len in Hs; lia).
    rewrite Hn2 in Ew. destruct (index f 1); discriminate. }
  destruct (length_word_ok f H2) as (b1 & b2 & _ & _ & Ew' & Hr).
  rewrite Ew in Ew'. injection Ew' as ->. lia.
Qed.

Lemma length_word_app (f rest : bytes) :
  2 < len f -> length_word (f ++ rest) = length_word f.
Proof.
  intros H2. unfold length_word.
  rewrite (index_app_l f rest 1) by lia.
  destruct (index f 1); cbn [bind]; [|reflexivity].
  now rewrite (index_app_l f rest 2) by lia.
Qed.

Lemma bin_index_app_zero (f rest : bytes) :
  starts_with_preamble f -> bin_index (f ++ rest) RTCM_START = 0.
Proof.
  intros (x & r & -> & Hx). apply bin_index_zero. now exists x, (r ++ rest).
Qed.

(** A valid frame at the front of the accumulator is emitted and exactly
    its bytes are removed. *)
Lemma get_msg_frame_then_rest (f rest : bytes) :
  valid_frame f -> get_msg (f ++ rest) = Ok (f, rest).
Proof.
  intros (Hs & n & Ew & Hn & Hlen & Hcrc).
  destruct (valid_frame_length f n Ew Hlen) as [Hn0 H2].
  pose proof (len_nonneg rest) as Hr.
  rewrite get_msg_unfold. cbv zeta.
  rewrite (bin_index_app_zero f rest Hs), length_word_app, Ew by assumption.
  change (3 <? 0) with false. change (0 =? 0) with true. cbn [andb].
  destruct (Z.ltb_spec 2 (len (f ++ rest))); [|rewrite len_app in *; lia].
  destruct (Z.ltb_spec 1024 n); [lia|].
  destruct (Z.leb_spec (n + 6) (len (f ++ rest))); [|rewrite len_app in *; lia].
  rewrite <- Hlen, slice_app_l, slice_from_app_r.
  rewrite crc24_eq in Hcrc. injection Hcrc as ->. reflexivity.
Qed.

(** X6. Two valid frames that arrive in one block are emitted one per
    call, in order, the second call needing no new data. *)
Theorem two_frames_one_poll (f1 f2 : bytes) :
  valid_frame f1 -> valid_frame f2 ->
  receive_rtcm [] (Some (f1 ++ f2)) = Ok (f1, f2) /\
  receive_rtcm f2 None = Ok (f2, []).
Proof.
  intros H1 H2. split.
  - change (receive_rtcm [] (Some (f1 ++ f2))) with (get_msg (accumulated [] (Some (f1 ++ f2)))).
    rewrite accumulated_nil. now apply get_msg_frame_then_rest.
  - change (receive_rtcm f2 None) with (get_msg f2).
    rewrite <- (app_nil_r f2) at 1. now apply get_msg_frame_then_rest.
Qed.

Lemma frame1005_valid : valid_frame frame1005.
Proof.
  split; [eexists _, _; split; reflexivity|].
  exists 19. repeat split; vm_compute; congruence.
Qed.

Lemma two_frames_one_poll_witness :
  receive_rtcm [] (Some (frame1005 ++ frame1005)) = Ok (frame1005, frame1005) /\
  receive_rtcm frame1005 None = Ok (frame1005, []).
Proof.
  apply (two_frames_one_poll frame1005 frame1005); apply frame1005_valid.
Defined.

(** X7. A plaintext segment of at least 4 bytes that ends in CR LF and
    holds no 0xD3, directly followed by a valid frame: the first call emits
    the text, the next one the frame. *)
Theorem text_then_frame (t0 f rest : bytes) :
  no_preamble t0 -> 2 <= len t0 -> valid_frame f ->
  get_msg ((t0 ++ [x0d; x0a]%byte) ++ f ++ rest) = Ok (t0 ++ [x0d; x0a]%byte, f ++ rest) /\
  get_msg (f ++ rest) = Ok (f, rest).
Proof.
  intros Hno Hl Hv. split; [|now apply get_msg_frame_then_rest].
  destruct Hv as ((x & r & -> & Hx) & _).
  set (t := t0 ++ [x0d; x0a]%byte).
  assert (Hlt : len t = len t0 + 2) by (subst t; rewrite len_app; reflexivity).
  assert (Hnot : no_preamble t).
  { subst t. apply Forall_app. split; [assumption|].
    repeat constructor; discriminate. }
  assert (Eidx : bin_index (t ++ (x :: r) ++ rest) RTCM_START = len t)
    by (now apply (bin_index_app RTCM_START t x (r ++ rest))).
  assert (Hcr : crlf_before (t ++ (x :: r) ++ rest) (len t) = true).
  { unfold crlf_before.
    replace (Z.to_nat (len t - 2)) with (List.length t0) by (unfold len in *; lia).
    replace (Z.to_nat (len t - 1)) with (S (List.length t0)) by (unfold len in *; lia).
    subst t. rewrite <- !app_assoc.
    set (l := ([x0d; x0a]%byte ++ (x :: r) ++ rest)).
    assert (N1 : nth_error (t0 ++ l) (List.length t0) = Some x0d)
      by (rewrite nth_error_app2, Nat.sub_diag by lia; reflexivity).
    assert (N2 : nth_error (t0 ++ l) (S (List.length t0)) = Some x0a).
    { rewrite nth_error_app2 by lia.
      replace (S (List.length t0) - List.length t0)%nat with 1%nat by lia.
      reflexivity. }
    rewrite N1, N2.
    destruct (Z.leb_spec 2 (len (t0 ++ [x0d; x0a]%byte))); [reflexivity|lia]. }
  rewrite get_msg_unfold. cbv zeta. rewrite Eidx, Hcr.
  destruct (Z.ltb_spec 3 (len t)); [|lia]. cbn [andb].
  now rewrite slice_app_l, slice_from_app_r.
Qed.

Lemma text_then_frame_witness :
  get_msg (([x4f; x4b] ++ [x0d; x0a]) ++ frame1005 ++ [])%byte
  = Ok (([x4f; x4b] ++ [x0d; x0a])%byte, frame1005 ++ []) /\
  get_msg (frame1005 ++ []) = Ok (frame1005, []).
Proof.
  apply (text_then_frame [x4f; x4b]%byte frame1005 []).
  - repeat constructor; discriminate.
  - vm_compute. congruence.
  - apply frame1005_valid.
Defined.

(** X8. A frame with one byte after the header altered is never emitted:
    the accumulator is scrubbed, together with whatever followed the frame. *)
Theorem corrupted_frame_scrubbed (pre post rest : bytes) (x y : byte) :
  valid_frame (pre ++ x :: post) -> 3 <= len pre -> y <> x ->
  get_msg (pre ++ y :: post ++ rest) = Ok ([], []).
Proof.
  intros (Hs & n & Ew & Hn & Hlen & Hcrc) Hp Hne.
  destruct (valid_frame_length _ n Ew Hlen) as [Hn0 H2].
  pose proof (len_nonneg rest) as Hr. pose proof (len_nonneg post) as Hpo.
  rewrite len_app, len_cons in Hlen.
  assert (Hs' : starts_with_preamble pre).
  { destruct Hs as (a & r & E & Ha). destruct pre as [|p pre'].
    - unfold len in Hp. simpl in Hp. lia.
    - injection E as -> _. now exists a, pre'. }
  assert (Ew' : length_word (pre ++ y :: post ++ rest) = Ok n).
  { rewrite length_word_app by lia. rewrite length_word_app in Ew by lia. exact Ew. }
  apply (crc_failure_scrubs _ (pre ++ y :: post)).
  - unfold candidate.
    rewrite (bin_index_app_zero pre _ Hs'), Ew'. change (0 =? 0) with true. cbv iota.
    destruct (Z.leb_spec n 1024); [|lia]. rewrite Z.geb_leb.
    destruct (Z.leb_spec (n + 6) (len (pre ++ y :: post ++ rest)));
      [|rewrite len_app, len_cons, len_app in *; lia].
    cbn [andb]. f_equal.
    replace (pre ++ y :: post ++ rest) with ((pre ++ y :: post) ++ rest)
      by (rewrite <- app_assoc; reflexivity).
    replace (n + 6) with (len (pre ++ y :: post))
      by (rewrite len_app, len_cons; lia).
    apply slice_app_l.
  - intros Hc. rewrite <- Hcrc in Hc.
    now apply (crc24_byte_change pre post y x) in Hc.
Qed.

Lemma corrupted_frame_scrubbed_witness :
  get_msg (firstn 10 frame1005 ++ x00 :: skipn 11 frame1005 ++ frame1005)%byte = Ok ([], []).
Proof.
  apply (corrupted_frame_scrubbed (firstn 10 frame1005) (skipn 11 frame1005)
           frame1005 xde x00).
  - apply frame1005_valid.
  - vm_compute. congruence.
  - discriminate.
Defined.

(** X4. While the accumulator holds no 0xD3, [receive_rtcm] emits nothing
    and drops nothing: every byte received so far stays buffered. *)
Theorem no_preamble_buffers (data : bytes) (part : option bytes) :
  no_preamble (accumulated data part) ->
  receive_rtcm data part = Ok ([], accumulated data part).
Proof.
  change (receive_rtcm data part) with (get_msg (accumulated data part)).
  intros Hno. rewrite get_msg_unfold. cbv zeta.
  rewrite (no_preamble_bin_index _ Hno). reflexivity.
Qed.

Lemma no_preamble_buffers_witness :
  receive_rtcm [x4f; x4b]%byte (Some [x0d; x0a]%byte)
  = Ok ([], accumulated [x4f; x4b]%byte (Some [x0d; x0a]%byte)).
Proof.
  apply (no_preamble_buffers [x4f; x4b]%byte (Some [x0d; x0a]%byte)).
  repeat constructor; discriminate.
Defined.

(** X5. A call only ever consumes the accumulator from the front: the new
    accumulator is a suffix of the old one, and what is emitted, if
    anything, is exactly the part removed. *)
Theorem consumed_from_front (data : bytes) (part : option bytes) (d data' : bytes) :
  receive_rtcm data part = Ok (d, data') ->
  exists removed,
    accumulated data part = removed ++ data' /\ (d = [] \/ d = removed).
Proof.
  change (receive_rtcm data part) with (get_msg (accumulated data part)).
  set (acc := accumulated data part). rewrite get_msg_unfold. cbv zeta.
  pose proof (bin_index_le_len acc RTCM_START) as Hle.
  destruct ((3 <? bin_index acc RTCM_START) && crlf_before acc (bin_index acc RTCM_START)) eqn:Et.
  - apply andb_prop in Et as [Et _]. apply Z.ltb_lt in Et.
    rewrite slice_prefix, slice_from_suffix by lia.
    intros [= <- <-]. eexists. split; [symmetry; apply firstn_skipn|now right].
  - destruct ((bin_index acc RTCM_START =? 0) && (2 <? len acc)) eqn:Ef.
    + apply andb_prop in Ef as [_ Ef]. apply Z.ltb_lt in Ef.
      destruct (length_word_ok acc Ef) as (b1 & b2 & _ & _ & -> & Hr).
      destruct (1024 <? _).
      { intros [= <- <-]. exists acc. rewrite app_nil_r. auto. }
      destruct (Z.leb_spec (byte_val b1 * 256 + byte_val b2 + 6) (len acc)).
      * destruct (crc24_pure _ =? 0).
        -- rewrite slice_prefix by lia. rewrite len_firstn by lia.
           rewrite slice_from_suffix by lia.
           intros [= <- <-]. eexists. split; [symmetry; apply firstn_skipn|now right].
        -- intros [= <- <-]. exists acc. rewrite app_nil_r. auto.
      * intros [= <- <-]. exists []. auto.
    + destruct (Z.ltb_spec 0 (bin_index acc RTCM_START)).
      * rewrite slice_from_suffix by lia.
        intros [= <- <-]. eexists. split; [symmetry; apply firstn_skipn|now left].
      * intros [= <- <-]. exists []. auto.
Qed.

Lemma consumed_from_front_witness :
  receive_rtcm [x01; x02]%byte (Some frame1005) = Ok ([], frame1005) /\
  exists removed,
    accumulated [x01; x02]%byte (Some frame1005) = removed ++ frame1005 /\
    (@nil byte = [] \/ [] = removed).
Proof.
  split; [vm_compute; reflexivity|].
  apply (consumed_from_front [x01; x02]%byte (Some frame1005) [] frame1005).
  vm_compute. reflexivity.
Defined.

(** X3. [bin_index] is -1 exactly when the byte does not occur, and
    otherwise the offset of its first occurrence. *)
Theorem bin_index_first_occurrence (data : bytes) (b : Z) :
  (bin_index data b = -1 <-> Forall (fun y => byte_val y <> b) data) /\
  (bin_index data b <> -1 ->
   exists x,
     0 <= bin_index data b < len data /\
     nth_error data (Z.to_nat (bin_index data b)) = Some x /\ byte_val x = b /\
     forall j y, (j < Z.to_nat (bin_index data b))%nat ->
                 nth_error data j = Some y -> byte_val y <> b).
Proof.
  destruct (bin_index_spec data b) as [[E Hall]|(pre & x & post & -> & E & Hx & Hpre)].
  - split; [tauto|congruence].
  - pose proof (len_nonneg pre) as Hp. pose proof (len_nonneg post) as Hq. split.
    + split.
      * intros E'. lia.
      * intros Hall. apply Forall_app in Hall as [_ Hall].
        inversion Hall; subst. contradiction.
    + intros _. exists x. rewrite E, len_app, len_cons.
      replace (Z.to_nat (len pre)) with (List.length pre) by (unfold len; lia).
      split; [lia|]. split.
      { rewrite nth_error_app2 by lia. now rewrite Nat.sub_diag. }
      split; [assumption|].
      intros j y Hj Ey. rewrite nth_error_app1 in Ey by assumption.
      rewrite Forall_forall in Hpre. apply Hpre.
      apply list_elem_of_In. eapply nth_error_In; eauto.
Qed.

End StreamFacts.

(** ** The bit-field reader *)

Module BitFieldFacts.
Import Py Ntrip Rtcm PyFacts CrcFacts.
Local Open Scope Z_scope.

Lemma fold_be (q : bytes) : forall acc,
  fold_left (fun acc b => acc * 256 + byte_val b) q acc
  = acc * 256 ^ len q + be_value q.
Proof.
  unfold be_value.
  induction q as [|x q IH]; intros acc; simpl fold_left.
  - unfold len. simpl. lia.
  - rewrite IH, (IH (0 * 256 + byte_val x)), len_cons.
    rewrite Z.pow_add_r by (pose proof (len_nonneg q); lia).
    lia.
Qed.

Lemma be_value_app (p q : bytes) :
  be_value (p ++ q) = be_value p * 256 ^ len q + be_value q.
Proof. unfold be_value at 1. rewrite fold_left_app. apply fold_be. Qed.

Lemma be_value_cons (x : byte) (q : bytes) :
  be_value (x :: q) = byte_val x * 256 ^ len q + be_value q.
Proof. unfold be_value at 1. simpl fold_left. rewrite fold_be. lia. Qed.

Lemma be_value_range (q : bytes) : 0 <= be_value q < 256 ^ len q.
Proof.
  induction q as [|x q IH].
  - unfold be_value, len. simpl. lia.
  - rewrite be_value_cons, len_cons.
    rewrite Z.pow_add_r by (pose proof (len_nonneg q); lia).
    pose proof (byte_val_range x). nia.
Qed.

Lemma byte_bit (u x k : Z) :
  0 <= k <= 7 -> 0 <= x < 256 ->
  ((u * 256 + x) / 2 ^ k) mod 2 = (x / 2 ^ k) mod 2.
Proof.
  intros Hk Hx.
  assert (Hc : k = 0 \/ k = 1 \/ k = 2 \/ k = 3 \/ k = 4 \/ k = 5 \/ k = 6 \/ k = 7) by lia.
  destruct Hc as [-> | [-> | [-> | [-> | [-> | [-> | [-> | ->]]]]]]];
    simpl Z.pow; Z.div_mod_to_equations; lia.
Qed.

(** Bit [n] of the buffer, counted from the most significant bit of the
    first byte, as [getbits2] extracts it. *)
Lemma bit_at (a : bytes) (n : Z) :
  0 <= n < 8 * len a ->
  exists x, index a (n / 8) = Ok x /\
    Z.land (Z.shiftr (byte_val x) (7 - Z.land n 7)) 1
    = (be_value a / 2 ^ (8 * len a - 1 - n)) mod 2.
Proof.
  intros Hn.
  assert (Hq : 0 <= n / 8 < len a) by (Z.div_mod_to_equations; lia).
  destruct (index_in_range a (n / 8) Hq) as (x & Ex & Nx).
  exists x. split; [exact Ex|].
  apply nth_error_split in Nx as (pre & post & -> & Hpre).
  assert (Hlp : len pre = n / 8) by (unfold len; lia).
  change 7 with (Z.ones 3) at 2. rewrite Z.land_ones by lia. change (2 ^ 3) with 8.
  change 1 with (Z.ones 1) at 1. rewrite Z.land_ones by lia. change (2 ^ 1) with 2.
  rewrite Z.shiftr_div_pow2 by (Z.div_mod_to_equations; lia).
  set (k := 7 - n mod 8).
  assert (Hk : 0 <= k <= 7) by (subst k; Z.div_mod_to_equations; lia).
  rewrite be_value_app, be_value_cons, len_app, !len_cons.
  replace (8 * (len pre + (len post + 1)) - 1 - n) with (8 * len post + k)
    by (subst k; rewrite Hlp; Z.div_mod_to_equations; lia).
  pose proof (len_nonneg post) as Hp.
  rewrite (Z.pow_add_r 2 (8 * len post) k) by lia.
  replace (256 ^ (len post + 1)) with (256 * 2 ^ (8 * len post))
    by (rewrite Z.pow_add_r, Z.pow_mul_r by lia; change (2 ^ 8) with 256; lia).
  replace (256 ^ len post) with (2 ^ (8 * len post))
    by (rewrite Z.pow_mul_r by lia; reflexivity).
  pose proof (be_value_range post) as Hr.
  replace (256 ^ len post) with (2 ^ (8 * len post)) in Hr
    by (rewrite Z.pow_mul_r by lia; reflexivity).
  set (P := 2 ^ (8 * len post)) in *.
  assert (HP : 0 < P) by (subst P; apply Z.pow_pos_nonneg; lia).
  rewrite <- Z.div_div by (try apply Z.pow_pos_nonneg; lia).
  replace (be_value pre * (256 * P) + (byte_val x * P + be_value post))
    with ((be_value pre * 256 + byte_val x) * P + be_value post) by lia.
  rewrite Z.div_add_l by lia.
  rewrite (Z.div_small (be_value post) P) by lia.
  rewrite Z.add_0_r.
  symmetry. apply byte_bit; [assumption|apply byte_val_range].
Qed.

Lemma lor_bit (r b : Z) : 0 <= b <= 1 -> Z.lor (Z.shiftl r 1) b = 2 * r + b.
Proof.
  intros Hb. rewrite Z.shiftl_mul_pow2 by lia. change (2 ^ 1) with 2.
  assert (Hl : Z.land (r * 2) b = 0).
  { assert (Hc : b = 0 \/ b = 1) by lia. destruct Hc as [-> | ->].
    - apply Z.land_0_r.
    - change 1 with (Z.ones 1). rewrite Z.land_ones by lia.
      change (2 ^ 1) with 2. apply Z.mod_mul. lia. }
  rewrite <- Z.lxor_lor by assumption.
  rewrite <- Z.add_nocarry_lxor by assumption. lia.
Qed.

Lemma getbits2_loop_value (a : bytes) (count : nat) : forall n res,
  0 <= n -> n + Z.of_nat count <= 8 * len a ->
  getbits2_loop a n count res =
  Ok (res * 2 ^ Z.of_nat count
      + (be_value a / 2 ^ (8 * len a - n - Z.of_nat count)) mod 2 ^ Z.of_nat count).
Proof.
  induction count as [|c IH]; intros n res Hn Hle.
  - simpl. f_equal. rewrite Z.mod_1_r. lia.
  - cbn [getbits2_loop]. cbv zeta.
    destruct (bit_at a n ltac:(lia)) as (x & Ex & Hbit).
    rewrite Ex. cbn [bind].
    rewrite lor_bit by (rewrite Hbit; Z.div_mod_to_equations; lia).
    rewrite IH by lia. f_equal. rewrite Hbit.
    replace (8 * len a - (n + 1) - Z.of_nat c) with (8 * len a - n - Z.of_nat (S c)) by lia.
    set (m := 8 * len a - n - Z.of_nat (S c)).
    replace (8 * len a - 1 - n) with (m + Z.of_nat c) by lia.
    rewrite Z.pow_add_r by lia.
    rewrite <- Z.div_div by (try apply Z.pow_pos_nonneg; lia).
    set (W := be_value a / 2 ^ m).
    replace (Z.of_nat (S c)) with (Z.of_nat c + 1) by lia.
    rewrite (Z.pow_add_r 2 (Z.of_nat c) 1) by lia. change (2 ^ 1) with 2.
    rewrite (Z.rem_mul_r W) by (try apply Z.pow_nonzero; lia).
    ring.
Qed.

Lemma getbits2_loop_short (a : bytes) (count : nat) : forall n res,
  0 <= n -> (0 < count)%nat -> 8 * len a < n + Z.of_nat count ->
  getbits2_loop a n count res = Raise IndexError.
Proof.
  induction count as [|c IH]; intros n res Hn Hc Hlt.
  - lia.
  - cbn [getbits2_loop]. cbv zeta.
    destruct (Z.ltb_spec n (8 * len a)) as [Hin|Hout].
    + destruct (bit_at a n ltac:(lia)) as (x & Ex & _). rewrite Ex. cbn [bind].
      apply IH; lia.
    + rewrite index_nonneg by (Z.div_mod_to_equations; lia).
      assert (Hnone : nth_error a (Z.to_nat (n / 8)) = None).
      { apply nth_error_None. unfold len in Hout. Z.div_mod_to_equations. lia. }
      rewrite Hnone. reflexivity.
Qed.

Lemma land_pow2 (u k : Z) :
  0 <= k -> 0 <= u < 2 ^ (k + 1) ->
  (Z.land u (2 ^ k) =? 0) = (u <? 2 ^ k).
Proof.
  intros Hk Hu.
  assert (Hland : Z.land u (2 ^ k) = if Z.testbit u k then 2 ^ k else 0).
  { apply Z.bits_inj'. intros m Hm. rewrite Z.land_spec, Z.pow2_bits_eqb by lia.
    destruct (Z.eqb_spec k m) as [<-|Hne].
    - rewrite andb_true_r. destruct (Z.testbit u k) eqn:E.
      + now rewrite Z.pow2_bits_true.
      + now rewrite Z.bits_0.
    - rewrite andb_false_r. destruct (Z.testbit u k).
      + now rewrite Z.pow2_bits_false.
      + now rewrite Z.bits_0. }
  rewrite Hland.
  assert (Hpos : 0 < 2 ^ k) by (apply Z.pow_pos_nonneg; lia).
  rewrite Z.pow_add_r in Hu by lia. change (2 ^ 1) with 2 in Hu.
  destruct (Z.testbit u k) eqn:E.
  - apply Z.testbit_true in E; [|lia].
    destruct (Z.ltb_spec u (2 ^ k)) as [Hlt|Hge].
    + rewrite Z.div_small in E by lia. discriminate.
    + apply Z.eqb_neq. lia.
  - destruct (Z.ltb_spec u (2 ^ k)) as [Hlt|Hge]; [reflexivity|].
    exfalso.
    assert (Hd : u / 2 ^ k = 1) by (symmetry; apply Z.div_unique with (r := u - 2 ^ k); lia).
    assert (Ht : Z.testbit u k = true) by (apply Z.testbit_true; [lia|]; now rewrite Hd).
    congruence.
Qed.

Lemma bit_field_range (a : bytes) (oset nbits : Z) :
  0 <= nbits -> 0 <= bit_field a oset nbits < 2 ^ nbits.
Proof.
  intros Hn. unfold bit_field. apply Z.mod_pos_bound. apply Z.pow_pos_nonneg; lia.
Qed.

Lemma signed_range (nbits u : Z) :
  0 < nbits -> 0 <= u < 2 ^ nbits ->
  - 2 ^ (nbits - 1) <= signed nbits u < 2 ^ (nbits - 1).
Proof.
  intros Hn Hu. unfold signed.
  assert (H2 : 2 ^ nbits = 2 * 2 ^ (nbits - 1)).
  { replace nbits with (Z.succ (nbits - 1)) at 1 by lia. apply Z.pow_succ_r. lia. }
  destruct (Z.ltb_spec u (2 ^ (nbits - 1))); lia.
Qed.

(** The sign step of [getbits2] on an [nbits]-bit number. *)
Lemma getbits2_value (a : bytes) (oset nbits : Z) :
  0 <= oset -> 0 < nbits -> oset + nbits <= 8 * len a ->
  getbits2 a oset nbits = Ok (signed nbits (bit_field a oset nbits)).
Proof.
  intros Ho Hn Hle. unfold getbits2.
  rewrite getbits2_loop_value by lia.
  rewrite Z2Nat.id by lia. rewrite Z.mul_0_l, Z.add_0_l.
  fold (bit_field a oset nbits). cbn [bind].
  pose proof (bit_field_range a oset nbits ltac:(lia)) as Hr.
  set (u := bit_field a oset nbits) in *.
  unfold py_lshift.
  destruct (Z.ltb_spec (nbits - 1) 0); [lia|]. cbn [bind].
  destruct (Z.ltb_spec nbits 0); [lia|].
  rewrite !Z.shiftl_mul_pow2 by lia. rewrite !Z.mul_1_l.
  rewrite land_pow2 by (try (replace (nbits - 1 + 1) with nbits by lia); lia).
  unfold signed. destruct (u <? 2 ^ (nbits - 1)); reflexivity.
Qed.

Lemma getbits2_short (a : bytes) (oset nbits : Z) :
  0 <= oset -> 0 < nbits -> 8 * len a < oset + nbits ->
  getbits2 a oset nbits = Raise IndexError.
Proof.
  intros Ho Hn Hlt. unfold getbits2.
  rewrite getbits2_loop_short by lia. reflexivity.
Qed.

(** X9. [getbits2] on a field inside the buffer returns the field, read most
    significant bit first, as a two's complement number of [nbits] bits. *)
Theorem getbits2_reads_field (a : bytes) (oset nbits : Z) :
  0 <= oset -> 0 < nbits -> oset + nbits <= 8 * len a ->
  exists v,
    getbits2 a oset nbits = Ok v /\
    - 2 ^ (nbits - 1) <= v < 2 ^ (nbits - 1) /\
    v mod 2 ^ nbits = (be_value a / 2 ^ (8 * len a - oset - nbits)) mod 2 ^ nbits.
Proof.
  intros Ho Hn Hle. exists (signed nbits (bit_field a oset nbits)).
  pose proof (bit_field_range a oset nbits ltac:(lia)) as Hr.
  split; [now apply getbits2_value|]. split; [now apply signed_range|].
  fold (bit_field a oset nbits). unfold signed.
  destruct (bit_field a oset nbits <? 2 ^ (nbits - 1)).
  - now apply Z.mod_small.
  - replace (bit_field a oset nbits - 2 ^ nbits)
      with (bit_field a oset nbits + (-1) * 2 ^ nbits) by lia.
    rewrite Z.mod_add by (apply Z.pow_nonzero; lia).
    now apply Z.mod_small.
Qed.

Lemma getbits2_reads_field_witness :
  exists v,
    getbits2 (slice_from frame1005 3) 74 38 = Ok v /\
    - 2 ^ (38 - 1) <= v < 2 ^ (38 - 1) /\
    v mod 2 ^ 38 =
    (be_value (slice_from frame1005 3) / 2 ^ (8 * len (slice_from frame1005 3) - 74 - 38))
      mod 2 ^ 38.
Proof.
  apply (getbits2_reads_field (slice_from frame1005 3) 74 38); vm_compute; congruence.
Defined.

(** X10. [getbits2] raises [IndexError] when the field runs past the end of
    the buffer, and [ValueError] when the width is not positive. *)
Theorem getbits2_errors (a : bytes) (oset nbits : Z) :
  0 <= oset ->
  (0 < nbits -> 8 * len a < oset + nbits -> getbits2 a oset nbits = Raise IndexError) /\
  (nbits <= 0 -> getbits2 a oset nbits = Raise ValueError).
Proof.
  intros Ho. split.
  - intros Hn Hlt. now apply getbits2_short.
  - intros Hn. unfold getbits2.
    replace (Z.to_nat nbits) with 0%nat by lia. cbn [getbits2_loop bind].
    unfold py_lshift. destruct (Z.ltb_spec (nbits - 1) 0); [reflexivity|lia].
Qed.

Lemma getbits2_errors_witness :
  (0 < 38 -> 8 * len (firstn 18 frame1005) < 114 + 38 ->
   getbits2 (firstn 18 frame1005) 114 38 = Raise IndexError) /\
  (38 <= 0 -> getbits2 (firstn 18 frame1005) 114 38 = Raise ValueError).
Proof. apply (getbits2_errors (firstn 18 frame1005) 114 38). lia. Defined.

End BitFieldFacts.

(** ** The message reader *)

Module MessageFacts.
Import Py Ntrip Rtcm PyFacts CrcFacts ReassemblerFacts BitFieldFacts.
Local Open Scope Z_scope.

(** The type that [msg_type] computes, without the bookkeeping. *)
Lemma msg_type_value (mt : list Z) (data : bytes) (d0 : byte) :
  index data 0 = Ok d0 ->
  byte_val d0 <> RTCM_START ->
  msg_type mt data = Ok (0, mt).
Proof.
  intros E0 Hne. unfold msg_type. rewrite E0. cbn [bind].
  apply Z.eqb_neq in Hne. rewrite Hne. reflexivity.
Qed.

Lemma existsb_eqb_In (typ : Z) (mt : list Z) :
  existsb (Z.eqb typ) mt = true <-> In typ mt.
Proof.
  rewrite existsb_exists. split.
  - intros (x & Hin & Heq). apply Z.eqb_eq in Heq. now subst.
  - intros Hin. exists typ. split; [assumption|apply Z.eqb_refl].
Qed.

Lemma NoDup_snoc (x : Z) (l : list Z) :
  List.NoDup l -> ~ In x l -> List.NoDup (l ++ [x]).
Proof.
  induction 1 as [|y l Hy Hl IH]; intros Hx; simpl.
  - constructor; [intros []|constructor].
  - constructor.
    + intros Hin. apply in_app_or in Hin as [Hin | [Hin | []]]; [contradiction|].
      apply Hx. now left.
    + apply IH. intros Hin. apply Hx. now right.
Qed.

(** X11. [msg_type] keeps [self.msg_types] free of duplicates and of 0, only
    ever appends to it, and records every non-zero type it returns. *)
Theorem msg_types_invariant (mt mt' : list Z) (data : bytes) (typ : Z) :
  List.NoDup mt -> ~ In 0 mt ->
  msg_type mt data = Ok (typ, mt') ->
  List.NoDup mt' /\ ~ In 0 mt' /\ (typ <> 0 -> In typ mt') /\
  (mt' = mt \/ mt' = mt ++ [typ]).
Proof.
  intros Hnd H0 Hm. unfold msg_type in Hm.
  destruct (index data 0) as [d0|]; cbn [bind] in Hm; [|discriminate].
  destruct (match negb (byte_val d0 =? RTCM_START) with
            | true => Ok 0
            | false => _ end) as [t|] eqn:Et; cbn [bind] in Hm; [|discriminate].
  destruct (Z.eqb_spec t 0) as [Ez|Hnz]; cbn [negb andb] in Hm.
  - injection Hm as <- <-. repeat split; auto. intros Hc; contradiction.
  - destruct (existsb (Z.eqb t) mt) eqn:Eex; cbn [negb] in Hm; injection Hm as <- <-.
    + apply existsb_eqb_In in Eex. repeat split; auto.
    + assert (Hnin : ~ In t mt).
      { intros Hin. apply existsb_eqb_In in Hin. congruence. }
      repeat split; auto.
      * now apply NoDup_snoc.
      * intros Hin. apply in_app_or in Hin as [Hin | [Hin | []]]; [contradiction|].
        congruence.
      * intros _. apply in_or_app. right. now left.
Qed.

Lemma msg_types_invariant_witness :
  List.NoDup [1077; 1005] /\ ~ In 0 [1077; 1005] /\
  msg_type [1077; 1005] frame1005 = Ok (1005, [1077; 1005]) /\
  (List.NoDup [1077; 1005] /\ ~ In 0 [1077; 1005] /\ (1005 <> 0 -> In 1005 [1077; 1005]) /\
   ([1077; 1005] = [1077; 1005] \/ [1077; 1005] = [1077; 1005] ++ [1005])).
Proof.
  assert (Hnd : List.NoDup [1077; 1005]).
  { constructor; [intros [H | []]; discriminate|].
    constructor; [intros []|constructor]. }
  assert (H0 : ~ In 0 [1077; 1005]) by (intros [H | [H | []]]; discriminate).
  repeat split; try assumption; try reflexivity;
    apply (msg_types_invariant [1077; 1005] [1077; 1005] frame1005 1005 Hnd H0 eq_refl).
Defined.

(** X12. On every non-empty message that [receive_rtcm] emits, [msg_type]
    raises nothing; it returns 0 for a plaintext segment and a 12-bit
    number for a frame. *)
Theorem msg_type_of_emitted (data : bytes) (part : option bytes) (d data' : bytes)
    (mt : list Z) :
  receive_rtcm data part = Ok (d, data') -> d <> [] ->
  exists typ mt',
    msg_type mt d = Ok (typ, mt') /\ 0 <= typ < 4096 /\
    (~ starts_with_preamble d -> typ = 0).
Proof.
  change (receive_rtcm data part) with (get_msg (accumulated data part)).
  intros Hget Hne.
  destruct (get_msg_cases _ _ _ Hget)
    as [(x & post & _ & Hno & _)|[(E0 & n & Ew & Hn & Hl & Ed & Ecrc & _)| ->]];
    [| |contradiction].
  - destruct d as [|d0 rest]; [contradiction|].
    inversion Hno as [|? ? Hd0 _]; subst.
    exists 0, mt. split; [|split; [lia|auto]].
    now apply (msg_type_value mt (d0 :: rest) d0).
  - assert (Hlen : len d = n + 6) by (subst d; apply len_firstn; lia).
    destruct (index_in_range d 0 ltac:(lia)) as (d0 & E0' & _).
    destruct (index_in_range d 3 ltac:(lia)) as (d3 & E3 & _).
    destruct (index_in_range d 4 ltac:(lia)) as (d4 & E4 & _).
    pose proof (byte_val_range d3) as H3. pose proof (byte_val_range d4) as H4.
    unfold msg_type. rewrite E0', E3, E4. cbn [bind].
    rewrite Z.shiftl_mul_pow2, Z.shiftr_div_pow2 by lia.
    change (2 ^ 4) with 16.
    destruct (negb (byte_val d0 =? RTCM_START)) eqn:Ed0; cbn [bind].
    + exists 0, mt. cbn. repeat split; auto; lia.
    + assert (Hstart : starts_with_preamble d).
      { apply negb_false_iff, Z.eqb_eq in Ed0.
        destruct d as [|y rest]; [discriminate|].
        cbn in E0'. injection E0' as ->. now exists d0, rest. }
      match goal with
      | |- context [if ?c then _ else _] => destruct c
      end; eexists _, _; (split; [reflexivity|]);
        (split; [Z.div_mod_to_equations; lia|intros Hc; contradiction]).
Qed.

Lemma msg_type_of_emitted_witness :
  receive_rtcm [] (Some frame1005) = Ok (frame1005, []) /\ frame1005 <> [] /\
  exists typ mt',
    msg_type [] frame1005 = Ok (typ, mt') /\ 0 <= typ < 4096 /\
    (~ starts_with_preamble frame1005 -> typ = 0).
Proof.
  split; [vm_compute; reflexivity|]. split; [discriminate|].
  apply (msg_type_of_emitted [] (Some frame1005) frame1005 [] []);
    [vm_compute; reflexivity|discriminate].
Defined.

Lemma message_number_field (d3 d4 : byte) (rest : bytes) :
  bit_field (d3 :: d4 :: rest) 0 12 = byte_val d3 * 16 + byte_val d4 / 16.
Proof.
  unfold bit_field. rewrite !be_value_cons, !len_cons.
  pose proof (len_nonneg rest) as Hl.
  pose proof (be_value_range rest) as Hr.
  pose proof (byte_val_range d3) as H3. pose proof (byte_val_range d4) as H4.
  replace (8 * (len rest + 1 + 1) - 0 - 12) with (8 * len rest + 4) by lia.
  replace (256 ^ (len rest + 1)) with (256 * 2 ^ (8 * len rest))
    by (rewrite Z.pow_add_r, Z.pow_mul_r by lia; change (2 ^ 8) with 256; lia).
  replace (256 ^ len rest) with (2 ^ (8 * len rest)) in *
    by (rewrite Z.pow_mul_r by lia; reflexivity).
  rewrite Z.pow_add_r by lia. change (2 ^ 4) with 16. change (2 ^ 12) with 4096.
  set (P := 2 ^ (8 * len rest)) in *.
  assert (HP : 0 < P) by (subst P; apply Z.pow_pos_nonneg; lia).
  rewrite <- Z.div_div by lia.
  replace (byte_val d3 * (256 * P) + (byte_val d4 * P + be_value rest))
    with ((byte_val d3 * 256 + byte_val d4) * P + be_value rest) by lia.
  rewrite Z.div_add_l by lia. rewrite (Z.div_small (be_value rest) P) by lia.
  rewrite Z.add_0_r. Z.div_mod_to_equations. lia.
Qed.

Lemma frame_head (data : bytes) :
  5 <= len data -> starts_with_preamble data ->
  exists d0 d1 d2 d3 d4 rest,
    data = d0 :: d1 :: d2 :: d3 :: d4 :: rest /\ byte_val d0 = RTCM_START.
Proof.
  intros Hl (x & r & -> & Hx).
  destruct r as [|d1 [|d2 [|d3 [|d4 rest]]]];
    try (unfold len in Hl; simpl in Hl; lia).
  now exists x, d1, d2, d3, d4, rest.
Qed.

Lemma msg_type_frame (mt mt' : list Z) (d0 d1 d2 d3 d4 : byte) (rest : bytes) (typ : Z) :
  byte_val d0 = RTCM_START ->
  msg_type mt (d0 :: d1 :: d2 :: d3 :: d4 :: rest) = Ok (typ, mt') ->
  typ = byte_val d3 * 16 + byte_val d4 / 16.
Proof.
  intros H0 Hm. unfold msg_type in Hm.
  rewrite !index_nonneg in Hm by lia.
  change (Z.to_nat 0) with 0%nat in Hm. change (Z.to_nat 3) with 3%nat in Hm.
  change (Z.to_nat 4) with 4%nat in Hm.
  cbn [nth_error bind] in Hm.
  apply Z.eqb_eq in H0. rewrite H0 in Hm. cbn [negb bind] in Hm.
  rewrite Z.shiftl_mul_pow2, Z.shiftr_div_pow2 in Hm by lia.
  change (2 ^ 4) with 16 in Hm.
  destruct (negb _ && negb _); now injection Hm as <- _.
Qed.

(** The 12 bits that [msg_type] and [getbits2] both read. *)
Lemma message_number_read (mt mt' : list Z) (data : bytes) (typ : Z) :
  5 <= len data -> starts_with_preamble data ->
  msg_type mt data = Ok (typ, mt') ->
  getbits2 (slice_from data 3) 0 12 = Ok (if typ <? 2048 then typ else typ - 4096).
Proof.
  intros Hl Hs Hm.
  destruct (frame_head data Hl Hs) as (d0 & d1 & d2 & d3 & d4 & rest & -> & H0).
  pose proof (msg_type_frame _ _ _ _ _ _ _ _ _ H0 Hm) as Htyp.
  rewrite slice_from_suffix by lia.
  change (skipn (Z.to_nat 3) (d0 :: d1 :: d2 :: d3 :: d4 :: rest)) with (d3 :: d4 :: rest).
  rewrite getbits2_value by (rewrite ?len_cons; pose proof (len_nonneg rest); lia).
  rewrite message_number_field, <- Htyp. reflexivity.
Qed.

(** X13. For a frame, the type that [msg_type] returns and the message
    number that [getbits2] reads for [decode_1006] are the same 12 bits:
    equal below 2048, and 4096 apart from there on, where [getbits2] takes
    the top bit as a sign. *)
Theorem msg_type_is_message_number (mt mt' : list Z) (data : bytes) (typ : Z) :
  5 <= len data -> starts_with_preamble data ->
  msg_type mt data = Ok (typ, mt') ->
  getbits2 (slice_from data 3) 0 12 = Ok (if typ <? 2048 then typ else typ - 4096).
Proof. apply message_number_read. Qed.

Lemma msg_type_is_message_number_witness :
  getbits2 (slice_from frame1005 3) 0 12 = Ok (if 1005 <? 2048 then 1005 else 1005 - 4096).
Proof.
  apply (msg_type_is_message_number [] [1005] frame1005 1005).
  - vm_compute. congruence.
  - eexists _, _. split; reflexivity.
  - reflexivity.
Defined.

Section Decode1006.
Variable xyz_llh : float -> float -> float -> result (num * num * num).

(** X14. [decode_1006] on a frame whose type is 1005 or 1006 needs 22 bytes
    (19 after the header): a shorter one raises [IndexError] before
    [xyz_llh] is reached, a longer one passes it the three 38-bit two's
    complement fields scaled by 0.0001. On any other type it returns the
    zero triple. *)
Theorem decode_1006_fields (mt mt' : list Z) (data : bytes) (typ : Z) :
  5 <= len data -> starts_with_preamble data ->
  msg_type mt data = Ok (typ, mt') ->
  (typ <> 1005 -> typ <> 1006 ->
   decode_1006 xyz_llh data = Ok (PInt 0, PInt 0, PInt 0)) /\
  (typ = 1005 \/ typ = 1006 -> len data < 22 ->
   decode_1006 xyz_llh data = Raise IndexError) /\
  (typ = 1005 \/ typ = 1006 -> 22 <= len data ->
   exists xi yi zi,
     getbits2 (slice_from data 3) 34 38 = Ok xi /\
     getbits2 (slice_from data 3) 74 38 = Ok yi /\
     getbits2 (slice_from data 3) 114 38 = Ok zi /\
     - 2 ^ 37 <= xi < 2 ^ 37 /\ - 2 ^ 37 <= yi < 2 ^ 37 /\ - 2 ^ 37 <= zi < 2 ^ 37 /\
     decode_1006 xyz_llh data =
     xyz_llh (float_of_int xi * 0.0001)%float (float_of_int yi * 0.0001)%float
             (float_of_int zi * 0.0001)%float).
Proof.
  intros Hl Hs Hm.
  pose proof (message_number_read mt mt' data typ Hl Hs Hm) as Hnum.
  assert (Hla : len (slice_from data 3) = len data - 3).
  { rewrite slice_from_suffix by lia. unfold len. rewrite length_skipn.
    unfold len in Hl. lia. }
  unfold decode_1006. cbv zeta. rewrite Hnum. cbn [bind].
  set (a := slice_from data 3) in *.
  repeat split.
  - intros H5 H6.
    destruct (Z.ltb_spec typ 2048).
    + destruct (Z.eqb_spec typ 1005); [contradiction|].
      destruct (Z.eqb_spec typ 1006); [contradiction|]. reflexivity.
    + assert (Hr : 0 <= typ < 4096).
      { destruct (frame_head data Hl Hs) as (d0 & d1 & d2 & d3 & d4 & rest & -> & H0).
        pose proof (msg_type_frame _ _ _ _ _ _ _ _ _ H0 Hm) as Htyp.
        pose proof (byte_val_range d3). pose proof (byte_val_range d4).
        Z.div_mod_to_equations. lia. }
      destruct (Z.eqb_spec (typ - 4096) 1005); [lia|].
      destruct (Z.eqb_spec (typ - 4096) 1006); [lia|]. reflexivity.
  - intros Ht Hshort.
    assert (Hc : (if typ <? 2048 then typ else typ - 4096) = typ)
      by (destruct Ht as [-> | ->]; reflexivity).
    rewrite Hc.
    assert (Hb : (typ =? 1005) || (typ =? 1006) = true)
      by (destruct Ht as [-> | ->]; reflexivity).
    rewrite Hb.
    destruct (Z.le_gt_cases (34 + 38) (8 * len a)) as [Hx|Hx];
      [rewrite (getbits2_value a 34 38) by lia|rewrite (getbits2_short a 34 38) by lia; reflexivity].
    cbn [bind].
    destruct (Z.le_gt_cases (74 + 38) (8 * len a)) as [Hy|Hy];
      [rewrite (getbits2_value a 74 38) by lia|rewrite (getbits2_short a 74 38) by lia; reflexivity].
    cbn [bind].
    rewrite (getbits2_short a 114 38) by lia. reflexivity.
  - intros Ht Hlong.
    assert (Hc : (if typ <? 2048 then typ else typ - 4096) = typ)
      by (destruct Ht as [-> | ->]; reflexivity).
    rewrite Hc.
    assert (Hb : (typ =? 1005) || (typ =? 1006) = true)
      by (destruct Ht as [-> | ->]; reflexivity).
    rewrite Hb.
    rewrite (getbits2_value a 34 38), (getbits2_value a 74 38),
      (getbits2_value a 114 38) by lia.
    cbn [bind].
    eexists _, _, _. repeat split; try reflexivity;
      apply (signed_range 38); try lia; apply bit_field_range; lia.
Qed.

End Decode1006.

Lemma decode_1006_fields_witness :
  (1005 <> 1005 -> 1005 <> 1006 ->
   decode_1006 (fun _ _ _ => Ok (PInt 0, PInt 0, PInt 0)) frame1005
   = Ok (PInt 0, PInt 0, PInt 0)) /\
  (1005 = 1005 \/ 1005 = 1006 -> len frame1005 < 22 ->
   decode_1006 (fun _ _ _ => Ok (PInt 0, PInt 0, PInt 0)) frame1005 = Raise IndexError) /\
  (1005 = 1005 \/ 1005 = 1006 -> 22 <= len frame1005 ->
   exists xi yi zi,
     getbits2 (slice_from frame1005 3) 34 38 = Ok xi /\
     getbits2 (slice_from frame1005 3) 74 38 = Ok yi /\
     getbits2 (slice_from frame1005 3) 114 38 = Ok zi /\
     - 2 ^ 37 <= xi < 2 ^ 37 /\ - 2 ^ 37 <= yi < 2 ^ 37 /\ - 2 ^ 37 <= zi < 2 ^ 37 /\
     decode_1006 (fun _ _ _ => Ok (PInt 0, PInt 0, PInt 0)) frame1005 =
     (fun _ _ _ => Ok (PInt 0, PInt 0, PInt 0))
       (float_of_int xi * 0.0001)%float (float_of_int yi * 0.0001)%float
       (float_of_int zi * 0.0001)%float).
Proof.
  apply (decode_1006_fields (fun _ _ _ => Ok (PInt 0, PInt 0, PInt 0))
           [] [1005] frame1005 1005).
  - vm_compute. congruence.
  - eexists _, _. split; reflexivity.
  - reflexivity.
Defined.

End MessageFacts.

(** ** The source table: selection and mapping *)

Module SourceTableMore.
Import Py Ntrip PyFacts SourceTableFacts.
Local Open Scope string_scope.
Local Open Scope Z_scope.

Lemma prefix_cons (c : ascii) (p s : string) :
  String.prefix (String c p) s = true ->
  exists s', s = String c s' /\ String.prefix p s' = true.
Proof.
  destruct s as [|b s']; simpl; [discriminate|].
  destruct (ascii_dec c b) as [<-|]; [|discriminate]. eauto.
Qed.

Lemma contains_cons (sub : string) (c : ascii) (s : string) :
  contains sub s = true -> contains sub (String c s) = true.
Proof.
  intros Hc. cbn [contains]. rewrite Hc. apply orb_true_r.
Qed.

(** Every line that starts with [STR;] holds a semicolon. *)
Lemma str_line_has_semicolon (line : string) :
  startswith line "STR;" = true -> contains ";" line = true.
Proof.
  unfold startswith. intros Hp.
  apply prefix_cons in Hp as (s1 & -> & Hp).
  apply prefix_cons in Hp as (s2 & -> & Hp).
  apply prefix_cons in Hp as (s3 & -> & Hp).
  apply prefix_cons in Hp as (s4 & -> & _).
  do 3 apply contains_cons.
  destruct s4; reflexivity.
Qed.

Section WithParsers.
Context `{Parsers}.

(** X16. Without a country filter ([None] or the empty string) the parser
    keeps exactly the lines that begin with [STR;], in their order, and
    returns their number. *)
Theorem no_filter_keeps_all_str_lines (country : pyval) (table : string) :
  country = PNone \/ country = PStr "" ->
  fst (fst (get_sourcetable country table)) =
    List.filter (fun line => startswith line "STR;") (split "010" table) /\
  snd (get_sourcetable country table) =
    len (List.filter (fun line => startswith line "STR;") (split "010" table)).
Proof.
  intros Hc.
  assert (Hpat : country_pattern country = ";") by (destruct Hc as [-> | ->]; reflexivity).
  assert (Hsel : select_lines ";" (split "010" table)
                 = List.filter (fun line => startswith line "STR;") (split "010" table)).
  { unfold select_lines. apply filter_ext_in. intros line _.
    destruct (startswith line "STR;") eqn:E; [|reflexivity].
    now rewrite str_line_has_semicolon. }
  unfold get_sourcetable. cbv zeta. cbn [fst snd]. rewrite Hpat, Hsel. auto.
Qed.

Lemma fold_add_source_notin (ls : list string) (name : string) :
  forall m : gmap string entry,
  (forall l c n la lo, In l ls -> get_sourcetable_name_pos l = (c, n, la, lo) -> n <> name) ->
  fold_left add_source ls m !! name = m !! name.
Proof.
  induction ls as [|l ls IH]; intros m Hno; [reflexivity|].
  cbn [fold_left]. rewrite IH.
  - unfold add_source.
    destruct (get_sourcetable_name_pos l) as [[[c n] la] lo] eqn:E.
    apply lookup_insert_ne. eapply Hno; [now left|exact E].
  - intros l' c n la lo Hin. apply Hno. now right.
Qed.

Lemma fold_add_source_keys (ls : list string) (name : string) :
  forall m : gmap string entry,
  is_Some (fold_left add_source ls m !! name) <->
  is_Some (m !! name) \/
  exists l c la lo, In l ls /\ get_sourcetable_name_pos l = (c, name, la, lo).
Proof.
  induction ls as [|l ls IH]; intros m.
  - cbn [fold_left]. split; [auto|]. intros [Hs | (l & c & la & lo & [] & _)]. exact Hs.
  - cbn [fold_left]. rewrite IH. unfold add_source at 1.
    destruct (get_sourcetable_name_pos l) as [[[c n] la] lo] eqn:E.
    destruct (decide (n = name)) as [->|Hne].
    + rewrite lookup_insert_eq. split; intros _.
      * right. exists l, c, la, lo. split; [now left|exact E].
      * left. eauto.
    + rewrite lookup_insert_ne by assumption. split.
      * intros [Hs | (l' & c' & la' & lo' & Hin & E')]; [auto|].
        right. exists l', c', la', lo'. split; [now right|exact E'].
      * intros [Hs | (l' & c' & la' & lo' & [<- | Hin] & E')]; [auto| |].
        -- rewrite E in E'. congruence.
        -- right. exists l', c', la', lo'. auto.
Qed.

Lemma fold_add_source_size (ls : list string) :
  forall m : gmap string entry,
  (size (fold_left add_source ls m) <= size m + List.length ls)%nat.
Proof.
  induction ls as [|l ls IH]; intros m; cbn [fold_left List.length]; [lia|].
  specialize (IH (add_source m l)).
  assert (Hs : (size (add_source m l) <= S (size m))%nat).
  { unfold add_source. destruct (get_sourcetable_name_pos l) as [[[c n] la] lo].
    rewrite map_size_insert. destruct (m !! n); simpl; lia. }
  lia.
Qed.

(** X17. The entry stored under a name is the one of the last selected line
    with that name: later lines overwrite earlier ones. *)
Theorem last_line_wins (country : pyval) (table : string)
    (pre : list string) (line : string) (post : list string)
    (c name : string) (lat lon : num) :
  select_lines (country_pattern country) (split "010" table) = (pre ++ line :: post)%list ->
  get_sourcetable_name_pos line = (c, name, lat, lon) ->
  (forall l c' n' la' lo',
     In l post -> get_sourcetable_name_pos l = (c', n', la', lo') -> n' <> name) ->
  snd (fst (get_sourcetable country table)) !! name = Some (c, lat, lon).
Proof.
  intros Hsel El Hpost. unfold get_sourcetable. cbv zeta. cbn [fst snd].
  rewrite Hsel. unfold build_sources.
  rewrite fold_left_app. cbn [fold_left].
  rewrite fold_add_source_notin by assumption.
  unfold add_source. rewrite El. apply lookup_insert_eq.
Qed.

(** X18. The keys of the mapping are exactly the names of the selected
    lines, and the returned count is the number of selected lines, which
    the number of entries never exceeds. *)
Theorem sources_keys_and_count (country : pyval) (table : string) :
  let '(sourcelines, sources, n) := get_sourcetable country table in
  n = len sourcelines /\
  Z.of_nat (size sources) <= n /\
  forall name,
    is_Some (sources !! name) <->
    exists l c la lo, In l sourcelines /\ get_sourcetable_name_pos l = (c, name, la, lo).
Proof.
  unfold get_sourcetable. cbv zeta.
  set (ls := select_lines _ _). split; [reflexivity|]. split.
  - pose proof (fold_add_source_size ls ∅) as Hs.
    rewrite map_size_empty in Hs. unfold build_sources, len. lia.
  - intros name. unfold build_sources. rewrite fold_add_source_keys.
    rewrite lookup_empty. split; [|auto].
    intros [[x Hx] | Hex]; [discriminate|exact Hex].
Qed.

(** X15. [get_sourcetable_name_pos] never raises: a line with at least 11
    fields whose fields 9 and 10 parse yields field 8 as country, field 1
    as name and the two numbers; every other line yields the tuple
    [("", "", 0, 0)]. *)
Theorem name_pos_fields (line : string) :
  (malformed line = true ->
   get_sourcetable_name_pos line = ("", "", PInt 0, PInt 0)) /\
  (malformed line = false ->
   exists country name la lo lat lon,
     nth_error (split ";" line) 8 = Some country /\
     nth_error (split ";" line) 1 = Some name /\
     nth_error (split ";" line) 9 = Some la /\ float_of_str la = Some lat /\
     nth_error (split ";" line) 10 = Some lo /\ float_of_str lo = Some lon /\
     get_sourcetable_name_pos line = (country, name, PFloat lat, PFloat lon)).
Proof.
  split; [apply malformed_name_pos|apply wellformed_name_pos].
Qed.

End WithParsers.

Lemma no_filter_keeps_all_str_lines_witness :
  fst (fst (get_sourcetable PNone "SOURCETABLE 200 OK")) =
    List.filter (fun line => startswith line "STR;") (split "010" "SOURCETABLE 200 OK") /\
  snd (get_sourcetable PNone "SOURCETABLE 200 OK") =
    len (List.filter (fun line => startswith line "STR;") (split "010" "SOURCETABLE 200 OK")).
Proof.
  apply (no_filter_keeps_all_str_lines PNone "SOURCETABLE 200 OK"). now left.
Defined.

Lemma last_line_wins_witness :
  snd (fst (get_sourcetable PNone "STR;A;x;x;x;x;x;x;USA;40.0;-75.0;0"))
    !! "A" = Some ("USA", PFloat 40, PFloat (-75)).
Proof.
  apply (last_line_wins PNone "STR;A;x;x;x;x;x;x;USA;40.0;-75.0;0"
           [] "STR;A;x;x;x;x;x;x;USA;40.0;-75.0;0" []).
  - reflexivity.
  - vm_compute. reflexivity.
  - intros l c' n' la' lo' [].
Defined.

End SourceTableMore.

(** ** The NMEA decoder: fields and sentences *)

Module GpsMore.
Import Py Ntrip Gps GpsIO PyFacts GpsFacts ReassemblerFacts.
Local Open Scope string_scope.
Local Open Scope Z_scope.

(** *** The field tables and [getval] *)

Lemma field_dict_from_notin (names : list string) (s : string) :
  forall i (m : gmap string Z),
  ~ In s names -> field_dict_from i names m !! s = m !! s.
Proof.
  induction names as [|n names IH]; intros i m Hn; [reflexivity|].
  cbn [field_dict_from]. rewrite IH by (intros Hin; apply Hn; now right).
  apply lookup_insert_ne. intros ->. apply Hn. now left.
Qed.

Lemma field_dict_from_lookup (names : list string) (s : string) :
  forall (j : nat) i (m : gmap string Z),
  List.NoDup names -> nth_error names j = Some s ->
  field_dict_from i names m !! s = Some (i + Z.of_nat j).
Proof.
  induction names as [|n names IH]; intros j i m Hnd Hj; [destruct j; discriminate|].
  inversion Hnd as [|? ? Hnotin Hnd']; subst.
  cbn [field_dict_from]. destruct j as [|j].
  - injection Hj as ->. rewrite field_dict_from_notin by assumption.
    rewrite lookup_insert_eq. f_equal. lia.
  - cbn [nth_error] in Hj. rewrite (IH j) by assumption. f_equal. lia.
Qed.

Section WithParsers.
Context `{Parsers}.

(** X19. With a table of distinct field names, [getval] returns the field at
    the position of the name in the table, [None] when the sentence is too
    short to have it, and raises [KeyError] for a name that is not in the
    table. *)
Theorem getval_by_position (names data : list string) :
  List.NoDup names ->
  (forall (j : nat) s, nth_error names j = Some s ->
     getval data (field_dict names) s =
     Ok (match nth_error data j with Some x => PStr x | None => PNone end)) /\
  (forall s, ~ In s names -> getval data (field_dict names) s = Raise KeyError).
Proof.
  intros Hnd. split.
  - intros j s Hj.
    rewrite (getval_total data (field_dict names) s (Z.of_nat j)).
    + now rewrite Nat2Z.id.
    + unfold field_dict. now rewrite (field_dict_from_lookup names s j) by assumption.
    + lia.
  - intros s Hn. unfold getval, dict_get, field_dict.
    rewrite field_dict_from_notin by assumption. rewrite lookup_empty. reflexivity.
Qed.

(** *** [decode] *)

(** X23. [decode] leaves the record alone on a line with fewer than 3
    fields, for which it returns [""], and on a sentence that is neither
    GSA nor GGA, for which it returns [False]. *)
Theorem decode_ignores_other_lines (line : string) (self : GpsDecode) :
  (len (split "," (str_slice line 0 (-3))) < 3 ->
   decode line self = (Ok (RStr ""), self)) /\
  (forall id rest,
     split "," (str_slice line 0 (-3)) = id :: rest -> (2 <= List.length rest)%nat ->
     id <> "$GPGSA" -> id <> "$GNGSA" -> id <> "$GPGGA" -> id <> "$GNGGA" ->
     decode line self = (Ok (RBool false), self)).
Proof.
  split.
  - intros Hl. unfold decode. cbv zeta.
    destruct (Z.ltb_spec (len (split "," (str_slice line 0 (-3)))) 3); [reflexivity|lia].
  - intros id rest Hs Hl H1 H2 H3 H4. unfold decode. cbv zeta. rewrite Hs.
    destruct (Z.ltb_spec (len (id :: rest)) 3) as [Hlt|_];
      [unfold len in Hlt; simpl List.length in Hlt; lia|].
    change (index (id :: rest) 0) with (@Ok string id).
    rewrite mbind_lift_ok.
    apply String.eqb_neq in H1, H2, H3, H4. rewrite H1, H2, H3, H4. reflexivity.
Qed.

(** X22. A GGA sentence with at least 6 fields whose latitude and longitude
    convert is decoded without an exception: [decode] returns [True], sets
    time, position, quality, satellite count, HDOP and altitude (each
    missing or unparsable one to its default), and keeps PDOP and VDOP. *)
Theorem decode_gga_complete (line : string) (self : GpsDecode)
    (id t la ns lo ew : string) (rest : list string) (a b : float) :
  split "," (str_slice line 0 (-3)) = id :: t :: la :: ns :: lo :: ew :: rest ->
  id = "$GPGGA" \/ id = "$GNGGA" ->
  degmin_deg (PStr la) (PStr ns) = Ok a ->
  degmin_deg (PStr lo) (PStr ew) = Ok b ->
  decode line self =
  (Ok (RBool true),
   {| lat := PFloat a; lon := PFloat b;
      alt := str2float (field rest 3) (PInt 0);
      quality := str2int (field rest 0) 0;
      pdop := pdop self;
      hdop := str2float (field rest 2) (PFloat 99.99);
      vdop := vdop self;
      nsats := str2int (field rest 1) 0;
      hour := str2int (PStr (str_slice t 0 2)) 0;
      min := str2int (PStr (str_slice t 2 4)) 0;
      sec := str2float (PStr (str_slice_from t 4)) (PInt 0) |}).
Proof.
  intros Hs Hid Ha Hb. unfold decode. cbv zeta. rewrite Hs.
  set (data := id :: t :: la :: ns :: lo :: ew :: rest).
  destruct (Z.ltb_spec (len data) 3) as [Hlt|_];
    [unfold len in Hlt; simpl List.length in Hlt; lia|].
  rewrite (getval_total _ RMC "time" 1), (getval_total _ GGA "lat" 2),
    (getval_total _ GGA "NS" 3), (getval_total _ GGA "lon" 4),
    (getval_total _ GGA "EW" 5), (getval_total _ GGA "quality" 6),
    (getval_total _ GGA "nsats" 7), (getval_total _ GGA "HDOP" 8),
    (getval_total _ GGA "alt" 9) by (reflexivity || lia).
  change (index data 0) with (@Ok string id).
  rewrite mbind_lift_ok.
  assert (Hgga : (String.eqb id "$GPGSA" || String.eqb id "$GNGSA" = false) /\
                 (String.eqb id "$GPGGA" || String.eqb id "$GNGGA" = true))
    by (destruct Hid as [-> | ->]; split; reflexivity).
  destruct Hgga as [-> ->].
  change (nth_error data (Z.to_nat 1)) with (Some t).
  change (nth_error data (Z.to_nat 2)) with (Some la).
  change (nth_error data (Z.to_nat 3)) with (Some ns).
  change (nth_error data (Z.to_nat 4)) with (Some lo).
  change (nth_error data (Z.to_nat 5)) with (Some ew).
  change (nth_error data (Z.to_nat 6)) with (nth_error rest 0).
  change (nth_error data (Z.to_nat 7)) with (nth_error rest 1).
  change (nth_error data (Z.to_nat 8)) with (nth_error rest 2).
  change (nth_error data (Z.to_nat 9)) with (nth_error rest 3).
  unfold py_getslice, py_getslice_from. cbv beta iota.
  repeat (rewrite ?mbind_lift_ok, ?mbind_assign; cbv beta).
  rewrite Ha.
  repeat (rewrite ?mbind_lift_ok, ?mbind_assign; cbv beta).
  rewrite Hb.
  repeat (rewrite ?mbind_lift_ok, ?mbind_assign; cbv beta).
  reflexivity.
Qed.

End WithParsers.

Lemma getval_by_position_witness :
  (forall (j : nat) s, nth_error GGA_S j = Some s ->
     getval ["$GPGGA"; "123519"; "4807.038"] (field_dict GGA_S) s =
     Ok (match nth_error ["$GPGGA"; "123519"; "4807.038"] j with
         | Some x => PStr x | None => PNone end)) /\
  (forall s, ~ In s GGA_S ->
     getval ["$GPGGA"; "123519"; "4807.038"] (field_dict GGA_S) s = Raise KeyError).
Proof.
  apply (getval_by_position GGA_S ["$GPGGA"; "123519"; "4807.038"]).
  unfold GGA_S.
  repeat (constructor; [cbn; intros Hin; repeat (destruct Hin as [Hin|Hin]; [discriminate|]); exact Hin|]).
  constructor.
Defined.

Lemma decode_gga_complete_witness :
  decode "$GPGGA,123519,4807.038,N,01131.000,E,1,08,0.9,545.4,M,46.9,M,,*47" init =
  (Ok (RBool true),
   {| lat := PFloat 48.1173; lon := PFloat 11.516666666666667;
      alt := str2float (field ["1"; "08"; "0.9"; "545.4"; "M"; "46.9"; "M"; ""; ""] 3) (PInt 0);
      quality := str2int (field ["1"; "08"; "0.9"; "545.4"; "M"; "46.9"; "M"; ""; ""] 0) 0;
      pdop := pdop init;
      hdop := str2float (field ["1"; "08"; "0.9"; "545.4"; "M"; "46.9"; "M"; ""; ""] 2)
                (PFloat 99.99);
      vdop := vdop init;
      nsats := str2int (field ["1"; "08"; "0.9"; "545.4"; "M"; "46.9"; "M"; ""; ""] 1) 0;
      hour := str2int (PStr (str_slice "123519" 0 2)) 0;
      min := str2int (PStr (str_slice "123519" 2 4)) 0;
      sec := str2float (PStr (str_slice_from "123519" 4)) (PInt 0) |}).
Proof.
  apply (decode_gga_complete
           "$GPGGA,123519,4807.038,N,01131.000,E,1,08,0.9,545.4,M,46.9,M,,*47" init
           "$GPGGA" "123519" "4807.038" "N" "01131.000" "E"
           ["1"; "08"; "0.9"; "545.4"; "M"; "46.9"; "M"; ""; ""]).
  - reflexivity.
  - now left.
  - vm_compute. reflexivity.
  - vm_compute. reflexivity.
Defined.

(** X20. With a hemisphere letter N, S, E or W, at least 4 characters and
    parts that [float()] accepts, [degmin_deg] returns the first 2 (N, S)
    or 3 (E, W) characters as degrees plus the rest as minutes over 60,
    negated for S and W. *)
Theorem degmin_deg_formula `{Parsers} (dm h : string) (d m : float) :
  4 <= str_len dm -> is_hemisphere h ->
  let n := if String.eqb h "N" || String.eqb h "S" then 2 else 3 in
  float_of_str (str_slice dm 0 n) = Some d ->
  float_of_str (str_slice_from dm n) = Some m ->
  degmin_deg (PStr dm) (PStr h) =
  Ok (if String.eqb h "S" || String.eqb h "W"
      then (- (d + m / 60))%float else (d + m / 60)%float).
Proof. apply degmin_deg_hemisphere. Qed.

Lemma degmin_deg_formula_witness :
  degmin_deg (PStr "01131.000") (PStr "W") =
  Ok (if String.eqb "W" "S" || String.eqb "W" "W"
      then (- (11 + 31 / 60))%float else (11 + 31 / 60)%float).
Proof.
  apply (degmin_deg_formula "01131.000" "W" 11 31).
  - vm_compute. congruence.
  - right. right. now right.
  - vm_compute. reflexivity.
  - vm_compute. reflexivity.
Defined.

(** X21. A GSA sentence is decoded without an exception: [decode] returns
    [False] and changes PDOP, HDOP and VDOP only, each to field 15, 16, 17
    or to 99.99 when the field is missing or unparsable. *)
Theorem decode_gsa_dops `{Parsers} (line : string) (self : GpsDecode)
    (id : string) (rest : list string) :
  split "," (str_slice line 0 (-3)) = id :: rest ->
  (2 <= List.length rest)%nat ->
  id = "$GPGSA" \/ id = "$GNGSA" ->
  decode line self =
  (Ok (RBool false),
   {| lat := lat self; lon := lon self; alt := alt self; quality := quality self;
      pdop := str2float (field rest 14) (PFloat 99.99);
      hdop := str2float (field rest 15) (PFloat 99.99);
      vdop := str2float (field rest 16) (PFloat 99.99);
      nsats := nsats self; hour := hour self; min := min self; sec := sec self |}).
Proof.
  intros Hs Hl Hid. rewrite (decode_gsa line self id rest Hs Hl Hid). reflexivity.
Qed.

Lemma decode_gsa_dops_witness :
  decode "$GPGSA,A,3,04,05,,09,12,,,24,,,,,2.5,1.3,2.1*39" init =
  (Ok (RBool false),
   {| lat := lat init; lon := lon init; alt := alt init; quality := quality init;
      pdop := str2float (field ["A"; "3"; "04"; "05"; ""; "09"; "12"; ""; ""; "24"; "";
                                ""; ""; ""; "2.5"; "1.3"; "2.1"] 14) (PFloat 99.99);
      hdop := str2float (field ["A"; "3"; "04"; "05"; ""; "09"; "12"; ""; ""; "24"; "";
                                ""; ""; ""; "2.5"; "1.3"; "2.1"] 15) (PFloat 99.99);
      vdop := str2float (field ["A"; "3"; "04"; "05"; ""; "09"; "12"; ""; ""; "24"; "";
                                ""; ""; ""; "2.5"; "1.3"; "2.1"] 16) (PFloat 99.99);
      nsats := nsats init; hour := hour init; min := min init; sec := sec init |}).
Proof.
  apply (decode_gsa_dops "$GPGSA,A,3,04,05,,09,12,,,24,,,,,2.5,1.3,2.1*39" init "$GPGSA"
           ["A"; "3"; "04"; "05"; ""; "09"; "12"; ""; ""; "24"; ""; ""; ""; ""; "2.5"; "1.3"; "2.1"]).
  - reflexivity.
  - simpl. lia.
  - now left.
Defined.

End GpsMore.

(** ** The serial reader and the sentence check *)

Module GpsIOFacts.
Import Py Ntrip Gps GpsIO PyFacts GpsFacts ReassemblerFacts.
Local Open Scope string_scope.
Local Open Scope Z_scope.

Lemma index_from_end {A} (l : list A) (i : Z) :
  - len l <= i < 0 -> exists x, index l i = Ok x.
Proof.
  intros Hi. unfold index.
  destruct (Z.ltb_spec i 0); [|lia].
  destruct (Z.leb_spec 0 (i + len l)); [|lia].
  destruct (Z.ltb_spec (i + len l) (len l)); [|lia]. cbn [andb].
  destruct (nth_error l (Z.to_nat (i + len l))) as [x|] eqn:E; [eauto|].
  apply nth_error_None in E. unfold len in *. lia.
Qed.

Lemma str_len_list (s : string) : str_len s = len (list_ascii_of_string s).
Proof.
  unfold str_len, len. f_equal.
  induction s as [|c s IH]; simpl; [reflexivity|now rewrite IH].
Qed.

Section Read.
Variable int16_of_str : string -> option Z.

(** The structural test of [read] never indexes out of range. *)
Lemma read_structure (line : string) :
  exists bad : bool,
    (if str_len line <? 9 then Ok true
     else
       c0 <- str_index line 0 ;;
       if negb (Ascii.eqb c0 "$") then Ok true
       else c3 <- str_index line (-3) ;; Ok (negb (Ascii.eqb c3 "*"))) = Ok bad /\
    (bad = false <->
     9 <= str_len line /\ str_index line 0 = Ok "$"%char /\
     str_index line (-3) = Ok "*"%char).
Proof.
  destruct (Z.ltb_spec (str_len line) 9) as [Hs|Hl].
  - exists true. split; [reflexivity|]. split; [discriminate|]. intros [? _]. lia.
  - rewrite str_len_list in Hl. unfold str_index.
    destruct (index_in_range (list_ascii_of_string line) 0 ltac:(lia)) as (c0 & E0 & _).
    destruct (index_from_end (list_ascii_of_string line) (-3) ltac:(lia)) as (c3 & E3).
    rewrite E0, E3. cbn [bind].
    destruct (Ascii.eqb_spec c0 "$") as [->|Hne0]; cbn [negb].
    + cbn [bind]. destruct (Ascii.eqb_spec c3 "*") as [->|Hne3]; cbn [negb].
      * exists false. rewrite str_len_list. repeat split; auto.
      * exists true. split; [reflexivity|]. split; [discriminate|].
        intros (_ & _ & [= E]). contradiction.
    + exists true. split; [reflexivity|]. split; [discriminate|].
      intros (_ & [= E] & _). contradiction.
Qed.

(** X24. A non-empty line that [read] returns is the stripped head of the
    queue, at least 9 characters long, starting with [$], with [*] third
    from the end, and the two characters after the [*] are the hexadecimal
    XOR of the characters between [$] and [*]; the head is removed. *)
Theorem read_returns_checked_line (rxq rxq' : list string) (line : string) :
  read int16_of_str rxq = (Ok line, rxq') -> line <> "" ->
  exists item,
    rxq = item :: rxq' /\ line = strip item /\ 9 <= str_len line /\
    str_index line 0 = Ok "$"%char /\ str_index line (-3) = Ok "*"%char /\
    int16_of_str (str_slice_from line (-2)) = Some (xor_fold (str_slice line 1 (-3))).
Proof.
  intros Hr Hne. destruct rxq as [|item q]; cbn [read] in Hr.
  - injection Hr as <- _. contradiction.
  - cbv zeta in Hr. injection Hr as Hr <-.
    exists item. split; [reflexivity|].
    destruct (read_structure (strip item)) as (bad & Eb & Hb).
    rewrite Eb in Hr. cbn [bind] in Hr.
    destruct bad; [injection Hr as <-; contradiction|].
    destruct Hb as [Hb _]. destruct (Hb eq_refl) as (Hl & H0 & H3).
    destruct (int16_of_str (str_slice_from (strip item) (-2))) as [v|] eqn:Ev;
      cbn [bind] in Hr; [|discriminate].
    destruct (Z.eqb_spec (xor_fold (str_slice (strip item) 1 (-3))) v) as [Ec|Hc];
      cbn [negb] in Hr; injection Hr as <-; [|contradiction].
    subst v. repeat split; auto.
Qed.

(** X25. [read] returns [""] and touches nothing on an empty queue, and
    otherwise removes exactly the head, whatever it does with it; the only
    exception it raises is the [ValueError] of [int(.., 16)], exactly when
    the line has the shape of a sentence and the two characters after [*]
    are not a hexadecimal number. *)
Theorem read_queue_and_errors (item : string) (q : list string) :
  read int16_of_str [] = (Ok "", []) /\
  snd (read int16_of_str (item :: q)) = q /\
  forall e,
    fst (read int16_of_str (item :: q)) = Raise e <->
    e = ValueError /\ 9 <= str_len (strip item) /\
    str_index (strip item) 0 = Ok "$"%char /\
    str_index (strip item) (-3) = Ok "*"%char /\
    int16_of_str (str_slice_from (strip item) (-2)) = None.
Proof.
  split; [reflexivity|]. split; [reflexivity|].
  intros e. cbn [read]. cbv zeta. cbn [fst].
  destruct (read_structure (strip item)) as (bad & Eb & Hb).
  rewrite Eb. cbn [bind]. destruct bad.
  - split; [discriminate|]. intros (_ & Hl & H0 & H3 & _).
    destruct Hb as [_ Hb]. discriminate Hb. auto.
  - destruct Hb as [Hb _]. destruct (Hb eq_refl) as (Hl & H0 & H3).
    destruct (int16_of_str (str_slice_from (strip item) (-2))) as [v|] eqn:Ev; cbn [bind].
    + split; [|intros (_ & _ & _ & _ & [=])].
      destruct (negb _); discriminate.
    + split; [intros [= <-]; auto|]. intros (-> & _). reflexivity.
Qed.

End Read.

Lemma read_returns_checked_line_witness :
  exists item,
    ["$GPGGA,123519,4807.038,N*27"; "x"] = item :: ["x"] /\
    "$GPGGA,123519,4807.038,N*27" = strip item /\
    9 <= str_len "$GPGGA,123519,4807.038,N*27" /\
    str_index "$GPGGA,123519,4807.038,N*27" 0 = Ok "$"%char /\
    str_index "$GPGGA,123519,4807.038,N*27" (-3) = Ok "*"%char /\
    int16_of_hex (str_slice_from "$GPGGA,123519,4807.038,N*27" (-2))
    = Some (xor_fold (str_slice "$GPGGA,123519,4807.038,N*27" 1 (-3))).
Proof.
  apply (read_returns_checked_line int16_of_hex
           ["$GPGGA,123519,4807.038,N*27"; "x"] ["x"] "$GPGGA,123519,4807.038,N*27");
    [reflexivity|discriminate].
Defined.

(** *** The serial loop *)

Lemma bytes_find_spec (data : bytes) (b : Z) :
  (bytes_find data b = -1 /\ Forall (fun y => byte_val y <> b) data) \/
  (exists pre x post,
     data = (pre ++ x :: post)%list /\ bytes_find data b = len pre /\ byte_val x = b /\
     Forall (fun y => byte_val y <> b) pre).
Proof. exact (bin_index_spec data b). Qed.

Lemma str_bytes_chr_join (l : bytes) : str_bytes (chr_join l) = l.
Proof.
  unfold str_bytes, chr_join. rewrite list_ascii_of_string_of_list_ascii.
  rewrite map_map. rewrite <- (map_id l) at 2.
  apply map_ext. intros b. apply byte_of_ascii_of_byte.
Qed.

Lemma byte_val_inj10 (x : byte) : byte_val x = 10 -> x = x0a.
Proof.
  unfold byte_val. intros E.
  assert (En : Byte.to_N x = Byte.to_N x0a) by (change (Byte.to_N x0a) with 10%N; lia).
  pose proof (Byte.of_to_N x) as Hx. rewrite En in Hx.
  cbn in Hx. congruence.
Qed.

(** X26. One turn of the serial loop loses no byte and reorders none: the
    bytes of the queued lines followed by the pending [line] are the same
    before and after, with the bytes just read added at the end. It queues
    at most one line, the pending bytes up to and including the first line
    feed, and queues none exactly when there is no line feed. *)
Theorem ser_in_step_conserves (line : bytes) (rxq : list string) (s : option bytes) :
  let pending := (line ++ match s with Some s => s | None => [] end)%list in
  let '(line', rxq') := ser_in_step line rxq s in
  (flat_map str_bytes rxq' ++ line' = flat_map str_bytes rxq ++ pending)%list /\
  ((rxq' = rxq /\ line' = pending /\ Forall (fun y => byte_val y <> 10) pending) \/
   (exists pre,
      rxq' = (rxq ++ [chr_join (pre ++ [x0a]%byte)])%list /\
      pending = (pre ++ [x0a]%byte ++ line')%list /\
      Forall (fun y => byte_val y <> 10) pre)).
Proof.
  cbv zeta. unfold ser_in_step.
  assert (Hp : match s with Some s0 => (line ++ s0)%list | None => line end
               = (line ++ match s with Some s0 => s0 | None => [] end)%list)
    by (destruct s; [reflexivity|now rewrite app_nil_r]).
  rewrite Hp. set (pending := (line ++ _)%list).
  destruct (bytes_find_spec pending 10)
    as [[E Hno]|(pre & x & post & Epending & E & Hx & Hpre)]; rewrite E.
  - cbn. split; [reflexivity|]. left. auto.
  - pose proof (len_nonneg pre) as Hl.
    destruct (Z.geb_spec (len pre) 0) as [_|]; [|lia].
    assert (Ex : x = x0a) by (apply byte_val_inj10; exact Hx).
    subst x. rewrite Epending.
    replace (pre ++ x0a :: post)%list with ((pre ++ [x0a]%byte) ++ post)%list
      by (rewrite <- app_assoc; reflexivity).
    replace (len pre + 1) with (len (pre ++ [x0a]%byte)) by (rewrite len_app; reflexivity).
    rewrite slice_app_l, slice_from_app_r. split.
    + rewrite flat_map_app. cbn [flat_map]. rewrite str_bytes_chr_join, app_nil_r.
      now rewrite <- !app_assoc.
    + right. exists pre. repeat split; auto.
      now rewrite <- app_assoc.
Qed.


End GpsIOFacts.
